(** * The property-market scraper: a shallow embedding and its properties

    The development follows [working-code/scraper-5.py], the latest version
    of [PropertyMarketIdentifier]: a page is fetched per website, parsed by
    BeautifulSoup, walked by a per-website block of selectors, cached in an
    [aiocache] memory cache for an hour, and the records of all websites are
    gathered and written as one CSV file.

    Conventions.
    - A Python [str] is a [string] holding its UTF-8 bytes.  Every pattern
      the code matches against ("Owner: ", "BUILDER0", tag and class names)
      is ASCII, so matching bytes and matching characters agree.
    - What Python raises is a value of [exn]; fallible code returns
      [Result].
    - The collaborators (network, clock, file system) are explicit
      arguments; the log, the cache and the files are explicit state.
    - Time is a number of time units ([Z]); every call is given the times
      at which it reads and writes the cache.

    The embedding comes first, then the vocabulary of the statements and
    the sample pages, then the properties. *)

From Stdlib Require Import ZArith List Bool Lia.
From stdpp Require Import base gmap list strings fin_maps.

Set Warnings "-register-all".
Local Open Scope Z_scope.

(** ** Results and exceptions *)

Module Py.

(** The exceptions the program can meet.  The first three are the ones
    [scrape_properties] names in its [except] clause:
    [aiohttp.ClientResponseError] (raised by [raise_for_status]) and the
    other [aiohttp.ClientError]s, and [asyncio.TimeoutError]. *)
Inductive exn : Type :=
| ClientError (detail : string)
| ClientResponseError (status : Z)
| TimeoutError
| KeyError (key : string)
| AttributeError
| IndexError
| TypeError
| OSError.

Inductive Result (A : Type) : Type :=
| Ok (a : A)
| Raise (e : exn).
Arguments Ok {A} a.
Arguments Raise {A} e.

Definition bind {A B} (r : Result A) (k : A -> Result B) : Result B :=
  match r with
  | Ok a => k a
  | Raise e => Raise e
  end.

(** A list comprehension whose body can raise: elements are evaluated
    left to right and the first exception ends the comprehension. *)
Fixpoint comprehension {A B} (f : A -> Result B) (l : list A)
  : Result (list B) :=
  match l with
  | [] => Ok []
  | x :: l' =>
      bind (f x) (fun y =>
      bind (comprehension f l') (fun ys => Ok (y :: ys)))
  end.

(** [for x in l: body], the body appending to an accumulator. *)
Fixpoint for_each {A S} (body : S -> A -> Result S) (acc : S) (l : list A)
  : Result S :=
  match l with
  | [] => Ok acc
  | x :: l' => bind (body acc x) (fun acc' => for_each body acc' l')
  end.

(** [zip] of three sequences stops at the shortest. *)
Fixpoint zip3 {A B C} (la : list A) (lb : list B) (lc : list C)
  : list (A * B * C) :=
  match la, lb, lc with
  | a :: la', b :: lb', c :: lc' => (a, b, c) :: zip3 la' lb' lc'
  | _, _, _ => []
  end.

Fixpoint zip2 {A B} (la : list A) (lb : list B) : list (A * B) :=
  match la, lb with
  | a :: la', b :: lb' => (a, b) :: zip2 la' lb'
  | _, _ => []
  end.

End Py.

Notation "'let*' x ':=' c1 'in' c2" := (Py.bind c1 (fun x => c2))
  (at level 10, x name, c1 at level 100, c2 at level 200).

(** ** The [str] methods the scraper calls *)

Module PyStr.

Definition of_bytes (l : list nat) : string :=
  fold_right (fun n s => String (Ascii.ascii_of_nat n) s) EmptyString l.

Fixpoint mem_char (c : Ascii.ascii) (chars : string) : bool :=
  match chars with
  | EmptyString => false
  | String d chars' => if Ascii.eqb c d then true else mem_char c chars'
  end.

(** [s.lstrip(chars)]: drops leading characters for as long as they
    belong to the SET of characters [chars]. *)
Fixpoint lstrip (chars s : string) : string :=
  match s with
  | EmptyString => EmptyString
  | String c s' => if mem_char c chars then lstrip chars s' else s
  end.

Fixpoint startswith (s p : string) : bool :=
  match p, s with
  | EmptyString, _ => true
  | String a p', String b s' => if Ascii.eqb a b then startswith s' p' else false
  | String _ _, EmptyString => false
  end.

(** [s.replace(old, new)] for a non-empty [old]: occurrences are found
    left to right and do not overlap.  [skip] counts the characters of a
    matched occurrence that are still to be dropped. *)
Fixpoint replace_from (old new : string) (skip : nat) (s : string) : string :=
  match s with
  | EmptyString => EmptyString
  | String c s' =>
      match skip with
      | S k => replace_from old new k s'
      | O =>
          if startswith s old
          then new +:+ replace_from old new (String.length old - 1) s'
          else String c (replace_from old new O s')
      end
  end.

Definition replace (old new s : string) : string := replace_from old new O s.

(** The characters [str.isspace] accepts, as UTF-8: U+0009..U+000D,
    U+001C..U+0020, U+0085, U+00A0, U+1680, U+2000..U+200A, U+2028,
    U+2029, U+202F, U+205F, U+3000. *)
Definition whitespace : list (list nat) :=
  [ [9]; [10]; [11]; [12]; [13]; [28]; [29]; [30]; [31]; [32];
    [194; 133]; [194; 160]; [225; 154; 128];
    [226; 128; 128]; [226; 128; 129]; [226; 128; 130]; [226; 128; 131];
    [226; 128; 132]; [226; 128; 133]; [226; 128; 134]; [226; 128; 135];
    [226; 128; 136]; [226; 128; 137]; [226; 128; 138];
    [226; 128; 168]; [226; 128; 169]; [226; 128; 175];
    [226; 129; 159]; [227; 128; 128] ]%nat.

(** Length of the pattern of [pats] that [s] starts with, [0] if none. *)
Fixpoint leading (pats : list string) (s : string) : nat :=
  match pats with
  | [] => O
  | p :: pats' => if startswith s p then String.length p else leading pats' s
  end.

Fixpoint drop_leading (pats : list string) (skip : nat) (s : string) : string :=
  match s with
  | EmptyString => EmptyString
  | String c s' =>
      match skip with
      | S k => drop_leading pats k s'
      | O =>
          match leading pats s with
          | O => s
          | S k => drop_leading pats k s'
          end
      end
  end.

Fixpoint rev_string (s acc : string) : string :=
  match s with
  | EmptyString => acc
  | String c s' => rev_string s' (String c acc)
  end.

Definition lstrip_ws (s : string) : string :=
  drop_leading (map of_bytes whitespace) O s.

Definition rstrip_ws (s : string) : string :=
  rev_string
    (drop_leading (map (fun b => of_bytes (rev b)) whitespace) O
       (rev_string s EmptyString))
    EmptyString.

(** [s.strip()] *)
Definition strip (s : string) : string := rstrip_ws (lstrip_ws s).

Definition upper_char (c : Ascii.ascii) : Ascii.ascii :=
  let n := Ascii.nat_of_ascii c in
  if ((97 <=? n) && (n <=? 122))%nat then Ascii.ascii_of_nat (n - 32) else c.

Definition lower_char (c : Ascii.ascii) : Ascii.ascii :=
  let n := Ascii.nat_of_ascii c in
  if ((65 <=? n) && (n <=? 90))%nat then Ascii.ascii_of_nat (n + 32) else c.

Fixpoint lower (s : string) : string :=
  match s with
  | EmptyString => EmptyString
  | String c s' => String (lower_char c) (lower s')
  end.

(** [s.capitalize()] on ASCII text.  The scraper capitalizes only a
    website name that was found among the keys of [base_url]. *)
Definition capitalize (s : string) : string :=
  match s with
  | EmptyString => EmptyString
  | String c s' => String (upper_char c) (lower s')
  end.

(** [sep.join(l)] *)
Fixpoint join (sep : string) (l : list string) : string :=
  match l with
  | [] => EmptyString
  | [x] => x
  | x :: l' => x +:+ sep +:+ join sep l'
  end.

(** [os.path.join(a, p)] on POSIX. *)
Definition endswith_slash (a : string) : bool :=
  startswith (rev_string a EmptyString) "/".

Definition path_join (a p : string) : string :=
  if startswith p "/" then p
  else if (String.eqb a EmptyString || endswith_slash a)%bool then a +:+ p
  else a +:+ "/" +:+ p.

End PyStr.

(** ** The parsed page: BeautifulSoup's navigable tree *)

Module Bs4.

(** The classes of strings that are not a plain [NavigableString]: what
    the parser makes of comments, declarations and the like, and the
    classes the HTML tree builders give to the strings inside [script],
    [style], [template], [rt] and [rp]. *)
Inductive StringClass : Type :=
| CData
| Comment
| Declaration
| Doctype
| ProcessingInstruction
| Script
| Stylesheet
| TemplateString
| RubyTextString
| RubyParenthesisString.

(** A node is a text node or a tag with its name, the values of its
    [class] attribute and its children.  The scraper selects on names
    and classes only.  The [BeautifulSoup] object itself is the tag
    named "[document]" whose contents are the top-level nodes.  A string
    of one of the other classes is an [OtherString]. *)
Inductive Node : Type :=
| NavigableString (s : string)
| Tag (name : string) (classes : list string) (contents : list Node)
| OtherString (cls : StringClass) (s : string).

(** [node.descendants]: every node below [node], in document order. *)
Fixpoint descendants (n : Node) : list Node :=
  match n with
  | NavigableString _ => []
  | Tag _ _ cs => flat_map (fun c => c :: descendants c) cs
  | OtherString _ _ => []
  end.

(** [builder.string_containers] of an HTML tree builder (the scraper
    parses with "lxml"): the class of the strings inside a tag of that
    name. *)
Definition string_containers (name : string) : option StringClass :=
  if String.eqb name "rt" then Some RubyTextString
  else if String.eqb name "rp" then Some RubyParenthesisString
  else if String.eqb name "style" then Some Stylesheet
  else if String.eqb name "script" then Some Script
  else if String.eqb name "template" then Some TemplateString
  else None.

(** [tag.interesting_string_types]: the class of its container for one
    of the five tags above, and [(NavigableString, CData)] for any
    other tag.  [None] stands for the class [NavigableString] itself. *)
Definition interesting_string_types (name : string) (cls : option StringClass)
  : bool :=
  match string_containers name, cls with
  | None, None => true
  | None, Some CData => true
  | Some RubyTextString, Some RubyTextString => true
  | Some RubyParenthesisString, Some RubyParenthesisString => true
  | Some Stylesheet, Some Stylesheet => true
  | Some Script, Some Script => true
  | Some TemplateString, Some TemplateString => true
  | _, _ => false
  end.

(** [tag.get_text(types=types)]: the strings below the tag whose class
    is one of [types], in document order, concatenated. *)
Fixpoint get_text (types : option StringClass -> bool) (n : Node) : string :=
  match n with
  | NavigableString s => if types None then s else EmptyString
  | Tag _ _ cs => fold_right (fun c acc => get_text types c +:+ acc) EmptyString cs
  | OtherString cls s => if types (Some cls) then s else EmptyString
  end.

(** [node.text]: for a tag, [get_text] with the tag's own
    [interesting_string_types], so that under a [div] or a [span] the
    comments and the strings of [script] and [style] are left out; a
    string is its own text. *)
Definition text (n : Node) : string :=
  match n with
  | NavigableString s => s
  | Tag name _ _ => get_text (interesting_string_types name) n
  | OtherString _ s => s
  end.

Definition has_class (cls : option string) (classes : list string) : bool :=
  match cls with
  | None => true
  | Some c => existsb (String.eqb c) classes
  end.

Definition selected (name : string) (cls : option string) (n : Node) : bool :=
  match n with
  | NavigableString _ => false
  | Tag nm classes _ => String.eqb nm name && has_class cls classes
  | OtherString _ _ => false
  end.

(** [node.find_all(name, class_=cls)] *)
Definition find_all (name : string) (cls : option string) (n : Node) : list Node :=
  filter (fun d => selected name cls d = true) (descendants n).

(** [node.find(name, class_=cls)]: the first match, or [None]. *)
Definition find (name : string) (cls : option string) (n : Node) : option Node :=
  head (find_all name cls n).

(** [x.text] where [x] came from [find]: on [None] Python raises
    [AttributeError]. *)
Definition text_of (x : option Node) : Py.Result string :=
  match x with
  | Some n => Py.Ok (text n)
  | None => Py.Raise Py.AttributeError
  end.

End Bs4.

(** ** Records, the three extraction blocks of [scrape_properties] *)

Module Extract.
Import Py Bs4.

(** The value stored under a key of a scraped [dict]: a [str], or, for
    the price of a commonfloor listing, the [ResultSet] of [td] tags
    (line 101 rebinds [price] to [price.find_all("td")] and that list is
    what line 114 stores). *)
Inductive PyVal : Type :=
| PStr (s : string)
| PTags (tags : list Node).

(** A scraped [dict], keys in insertion order. *)
Definition Record : Type := list (string * PyVal).

Definition record (owner price property_name : PyVal) : Record :=
  [("owner", owner); ("price", price); ("property_name", property_name)].

(** Lines 121-153: one [mb-srp__left] listing of magicbricks. *)
Definition magicbricks_listing (listing : Node) : Result (list Record) :=
  let owner_names := find_all "div" (Some "mb-srp__card__ads") listing in
  let* owners :=
    comprehension
      (fun owner =>
         let* t := text_of (find "div" (Some "mb-srp__card__ads--name") owner) in
         Ok (PyStr.lstrip "Owner: " t))
      owner_names in
  let price_list := find_all "div" (Some "mb-srp__card__price--amount") listing in
  let prices := map text price_list in
  let property_names := map text (find_all "h2" (Some "mb-srp__card--title") listing) in
  Ok (map (fun '(owner, price, prop_name) =>
             record (PStr owner) (PStr price) (PStr prop_name))
          (zip3 owners prices property_names)).

(** The currency sign U+20B9 of line 192. *)
Definition rupee : string := PyStr.of_bytes [226; 130; 185]%nat.

(** Lines 158-199: one [search-result-wrap] listing of makaan. *)
Definition makaan_listing (listing : Node) : Result (list Record) :=
  let owner_elements := find_all "div" (Some "seller-info") listing in
  let owners := map text owner_elements in
  let price_elements := find_all "td" (Some "price") listing in
  let price_elements := map (find "span" (Some "val")) price_elements in
  let* price_denominations :=
    comprehension (fun price => text_of (find "span" (Some "unit") price))
      (find_all "td" (Some "price") listing) in
  let* prices := comprehension text_of price_elements in
  let property_name_elements := find_all "div" (Some "seller-info") listing in
  let* property_name_elements :=
    comprehension (fun prop_name => text_of (find "a" (Some "seller-name") prop_name))
      property_name_elements in
  let prices :=
    map (fun '(price, price_denomination) => price +:+ " " +:+ price_denomination)
        (zip2 prices price_denominations) in
  Ok (map (fun '(owner, price, prop_name) =>
             record (PStr (PyStr.replace "BUILDER0" "" owner))
                    (PStr (rupee +:+ price))
                    (PStr prop_name))
          (zip3 owners prices property_name_elements)).

(** [x.find(name)] where [x] itself came from [find]. *)
Definition find_in (name : string) (cls : option string) (x : option Node)
  : Result (option Node) :=
  match x with
  | Some n => Ok (find name cls n)
  | None => Raise AttributeError
  end.

(** Lines 97-115: one [snb-content-list] listing of commonfloor.  The
    debugging [print] of line 106 writes to the standard output, which
    is not part of the modelled state. *)
Definition commonfloor_listing (listing : Node) : Result Record :=
  let* owner := text_of (find "h3" (Some "proSnbp") listing) in
  let owner := PyStr.strip owner in
  let price := find "tbody" None listing in
  let* price :=
    match price with
    | Some tbody => Ok (find_all "td" None tbody)
    | None => Raise AttributeError
    end in
  let* icon_inr :=
    match price with
    | td :: _ => Ok (find "i" (Some "icon-inr") td)
    | [] => Raise IndexError
    end in
  let property_info := find "div" (Some "snb-projecttile-top") listing in
  let* property_anchor := find_in "a" None property_info in
  let* h2 := find_in "h2" None property_anchor in
  let* property_name := text_of h2 in
  let property_name := PyStr.strip property_name in
  Ok (record (PStr owner) (PTags price) (PStr property_name)).

(** Lines 89-199: the [if]/[elif] chain on the website name, filling
    [property_data_list].  A name that matches no branch leaves the list
    empty. *)
Definition extract (website : string) (soup : Node) : Result (list Record) :=
  let property_data_list := [] in
  if String.eqb website "commonfloor" then
    for_each (fun acc listing =>
                let* r := commonfloor_listing listing in Ok (acc ++ [r]))
             property_data_list
             (find_all "div" (Some "snb-content-list") soup)
  else if String.eqb website "magicbricks" then
    for_each (fun acc listing =>
                let* rs := magicbricks_listing listing in Ok (acc ++ rs))
             property_data_list
             (find_all "div" (Some "mb-srp__left") soup)
  else if String.eqb website "makaan" then
    for_each (fun acc listing =>
                let* rs := makaan_listing listing in Ok (acc ++ rs))
             property_data_list
             (find_all "div" (Some "search-result-wrap") soup)
  else Ok property_data_list.

End Extract.

(** ** The memory cache behind [self.cache] *)

Module AioCache.
Import Py Extract.

(** What [set(key, value, ttl)] leaves in the store.  The backend
    schedules the deletion of the key [ttl] seconds after the [set];
    here the entry keeps its time stamp and [get] ignores it once it is
    that old. *)
Record Entry : Type := { value : list Record; stored_at : Z; ttl : Z }.

Definition live (now : Z) (e : Entry) : bool := now <? stored_at e + ttl e.

(** [await cache.get(key)] at time [now]: the stored value, or [None]. *)
Definition get (now : Z) (key : string) (store : gmap string Entry)
  : option (list Record) :=
  match store !! key with
  | Some e => if live now e then Some (value e) else None
  | None => None
  end.

(** The cache is built with [JsonSerializer()]: [set] passes the value
    through [json.dumps], which raises [TypeError] on anything that is
    not made of dicts, lists and strings, such as a bs4 tag. *)
Definition json_value (v : PyVal) : bool :=
  match v with
  | PStr _ => true
  | PTags [] => true
  | PTags (_ :: _) => false
  end.

Definition json_serializable (data : list Record) : bool :=
  forallb (fun r => forallb (fun kv => json_value (snd kv)) r) data.

(** [await cache.set(key, data, ttl=ttl)] at time [now]. *)
Definition set (now : Z) (key : string) (data : list Record) (ttl : Z)
    (store : gmap string Entry) : Result (gmap string Entry) :=
  if json_serializable data
  then Ok (<[key := {| value := data; stored_at := now; ttl := ttl |}]> store)
  else Raise TypeError.

End AioCache.

(** ** [pd.DataFrame(data)] and [to_csv(index=False)] *)

Module Pandas.
Import Extract.

(** The frame built from a list of dicts: its columns are the keys met,
    in order of first appearance; a dict without a column's key leaves
    that cell empty.  No [columns=] argument is passed by the scraper,
    so a frame built from no dict has no column. *)
Record Frame : Type :=
  { columns : list string; rows : list (list (option PyVal)) }.

Definition add_key (cols : list string) (k : string) : list string :=
  if existsb (String.eqb k) cols then cols else cols ++ [k].

Definition add_keys (cols : list string) (r : Record) : list string :=
  fold_left add_key (map fst r) cols.

Fixpoint getitem (k : string) (r : Record) : option PyVal :=
  match r with
  | [] => None
  | (k', v) :: r' => if String.eqb k k' then Some v else getitem k r'
  end.

Definition DataFrame (data : list Record) : Frame :=
  let cols := fold_left add_keys data [] in
  {| columns := cols;
     rows := map (fun r => map (fun c => getitem c r) cols) data |}.

(** The text [df.to_csv(index=False)] returns, kept as a table: the
    header line, then one line per row of the frame. *)
Record Csv : Type :=
  { header : list string; lines : list (list (option PyVal)) }.

Definition to_csv (df : Frame) : Csv :=
  {| header := columns df; lines := rows df |}.

End Pandas.

(** ** The collaborators and the state the scraper acts on *)

Module World.
Import Py Bs4.

(** What the network gives for a URL: a response with its status and
    its body (kept as the tree [BeautifulSoup(html, "lxml")] builds from
    it), a connection error, or no answer within the ten seconds of
    [timeout=10].  The body of a response is one that [response.text()]
    decodes: a body it cannot decode (a [UnicodeDecodeError], which no
    clause of the scraper catches) is not among the answers of this
    network. *)
Inductive FetchResult : Type :=
| Response (status : Z) (page : Node)
| ConnectionFailed (detail : string)
| TimedOut.

Record World : Type :=
  { net : string -> FetchResult;
    (** [datetime.datetime.now()] formatted with [%d-%b-%Y] *)
    today : string;
    (** whether [aiofiles.open(path, mode="w")] succeeds *)
    writable : string -> bool }.

Inductive Level : Type := INFO | ERROR.

(** The lines the scraper logs, before formatting. *)
Inductive Message : Type :=
| ErrorScraping (website : string) (e : exn)
| DataSavedTo (path : string)
| ErrorSavingCsv (e : exn).

Record File : Type := { encoding : string; contents : Pandas.Csv }.

Record State : Type :=
  { cache : gmap string AioCache.Entry;
    log : list (Level * Message);
    (** the URLs requested from the network so far, oldest first *)
    requests : list string;
    files : gmap string File }.

Definition set_cache (c : gmap string AioCache.Entry) (st : State) : State :=
  {| cache := c; log := log st; requests := requests st; files := files st |}.

Definition logging (l : Level) (m : Message) (st : State) : State :=
  {| cache := cache st; log := log st ++ [(l, m)];
     requests := requests st; files := files st |}.

Definition request (url : string) (st : State) : State :=
  {| cache := cache st; log := log st;
     requests := requests st ++ [url]; files := files st |}.

Definition write_file (path : string) (f : File) (st : State) : State :=
  {| cache := cache st; log := log st;
     requests := requests st; files := <[path := f]> (files st) |}.

(** The state of a process that has just started. *)
Definition initial : State :=
  {| cache := ∅; log := []; requests := []; files := ∅ |}.

End World.

(** ** [PropertyMarketIdentifier] *)

Module Scraper.
Import Py Bs4 Extract World.

Record PropertyMarketIdentifier : Type :=
  { websites : list string; city : string; output_dir : string }.

(** Lines 40-44. *)
Definition base_url (self : PropertyMarketIdentifier) : gmap string string :=
  <["magicbricks" :=
      "https://www.magicbricks.com/ready-to-move-flats-in-" +:+ city self +:+ "-pppfs"]>
  (<["makaan" :=
      "https://www.makaan.com/" +:+ city self
        +:+ "-residential-property/buy-property-in-" +:+ city self +:+ "-city"]>
  (<["commonfloor" :=
      "https://www.commonfloor.com/" +:+ city self +:+ "-property/projects"]> ∅)).

(** Lines 61-64: [raise_for_status] raises on a status of 400 or more. *)
Definition fetch_url (w : World) (url : string) : Result Node :=
  match net w url with
  | Response status page =>
      if 400 <=? status then Raise (ClientResponseError status) else Ok page
  | ConnectionFailed detail => Raise (ClientError detail)
  | TimedOut => Raise TimeoutError
  end.

(** The [except (aiohttp.ClientError, asyncio.TimeoutError)] clause of
    line 206. *)
Definition handled (e : exn) : bool :=
  match e with
  | ClientError _ | ClientResponseError _ | TimeoutError => true
  | _ => false
  end.

Definition cache_key (self : PropertyMarketIdentifier) (website : string) : string :=
  website +:+ "_" +:+ city self.

(** A call of the coroutine [scrape_properties(website)] runs in two
    turns, with the event loop free to run other tasks in between: up
    to the network request, and from the arrival of the response.  The
    first turn ends the call ([Finished]) or leaves it waiting for the
    answer to a request ([Awaiting]).  Within a turn the only access to
    the shared state is the one read of the cache (first turn) and the
    one write to the cache or to the log (second turn), so a finer
    interleaving of the awaits inside a turn shows nothing more. *)
Inductive Turn : Type :=
| Finished (r : Result (list Record))
| Awaiting (url : string).

(** Lines 77-86, at time [now]: a truthy cached value is returned;
    otherwise the URL is looked up ([KeyError] on an unknown website is
    not among the handled exceptions) and requested. *)
Definition start (self : PropertyMarketIdentifier) (now : Z) (website : string)
    (st : State) : Turn * State :=
  let cached_data := AioCache.get now (cache_key self website) (cache st) in
  match cached_data with
  | Some (r :: data) => (Finished (Ok (r :: data)), st)
  | _ =>
      match base_url self !! website with
      | Some url => (Awaiting url, request url st)
      | None => (Finished (Raise (KeyError website)), st)
      end
  end.

(** Lines 86-208, at time [now], once the network has answered with
    [fetched]. *)
Definition resume (self : PropertyMarketIdentifier) (now : Z) (website : string)
    (fetched : Result Node) (st : State) : Result (list Record) * State :=
  let body :=
    let* soup := fetched in
    let* property_data_list := extract website soup in
    let* store :=
      AioCache.set now (cache_key self website) property_data_list 3600 (cache st) in
    Ok (property_data_list, store) in
  match body with
  | Ok (property_data_list, store) => (Ok property_data_list, set_cache store st)
  | Raise e =>
      if handled e
      then (Ok [], logging ERROR (ErrorScraping (PyStr.capitalize website) e) st)
      else (Raise e, st)
  end.

(** One call of [scrape_properties] run on its own: the cache is read
    at time [t0] and, if a request is made, its answer is handled at
    time [t1]. *)
Definition scrape_properties (w : World) (self : PropertyMarketIdentifier)
    (t0 t1 : Z) (website : string) (st : State) : Result (list Record) * State :=
  match start self t0 website st with
  | (Finished r, st1) => (r, st1)
  | (Awaiting url, st1) => resume self t1 website (fetch_url w url) st1
  end.

(** *** [asyncio.gather] over the calls *)

(** A task of the event loop wrapping one call. *)
Inductive Task : Type :=
| Created (website : string)
| Fetching (website : string) (url : string)
| Done (r : Result (list Record)).

(** An event [(i, now)] gives task [i] its next turn at time [now].  A
    task that is done ignores it. *)
Definition turn (w : World) (self : PropertyMarketIdentifier) (ev : nat * Z)
    (tasks : list Task) (st : State) : list Task * State :=
  let '(i, now) := ev in
  match tasks !! i with
  | Some (Created website) =>
      match start self now website st with
      | (Finished r, st') => (<[i := Done r]> tasks, st')
      | (Awaiting url, st') => (<[i := Fetching website url]> tasks, st')
      end
  | Some (Fetching website url) =>
      let '(r, st') := resume self now website (fetch_url w url) st in
      (<[i := Done r]> tasks, st')
  | _ => (tasks, st)
  end.

(** The exception of the first task found to have raised. *)
Fixpoint raised (tasks : list Task) : option exn :=
  match tasks with
  | [] => None
  | Done (Raise e) :: _ => Some e
  | _ :: tasks' => raised tasks'
  end.

(** The event loop: events are served in order; [gather] was called
    without [return_exceptions], so the first exception of a task is
    delivered to the awaiting caller at once and the run ends there. *)
Fixpoint run (w : World) (self : PropertyMarketIdentifier) (evs : list (nat * Z))
    (tasks : list Task) (st : State) : list Task * State :=
  match raised tasks, evs with
  | None, ev :: evs' =>
      let '(tasks', st') := turn w self ev tasks st in
      run w self evs' tasks' st'
  | _, _ => (tasks, st)
  end.

(** The results of the tasks in the order of the tasks, if all are done
    without an exception. *)
Fixpoint results (tasks : list Task) : option (list (list Record)) :=
  match tasks with
  | [] => Some []
  | Done (Ok data) :: tasks' =>
      match results tasks' with
      | Some l => Some (data :: l)
      | None => None
      end
  | _ :: _ => None
  end.

(** What the caller of [await asyncio.gather(...)] sees once the events
    are served: the list of results, an exception, or nothing yet. *)
Inductive Awaited (A : Type) : Type :=
| Completed (a : A)
| Raised (e : exn)
| Pending.
Arguments Completed {A} a.
Arguments Raised {A} e.
Arguments Pending {A}.

Definition gather (w : World) (self : PropertyMarketIdentifier)
    (evs : list (nat * Z)) (websites_to_scrape : list string) (st : State)
  : Awaited (list (list Record)) * State :=
  let '(tasks, st') := run w self evs (map Created websites_to_scrape) st in
  match raised tasks with
  | Some e => (Raised e, st')
  | None =>
      match results tasks with
      | Some property_data => (Completed property_data, st')
      | None => (Pending, st')
      end
  end.

(** Lines 243-249.  Whatever goes wrong is logged, never raised. *)
Definition save_to_csv (w : World) (data : list Record) (filename : string)
    (st : State) : State :=
  let df := Pandas.DataFrame data in
  if writable w filename
  then logging INFO (DataSavedTo filename)
         (write_file filename
            {| encoding := "utf-8"; contents := Pandas.to_csv df |} st)
  else logging ERROR (ErrorSavingCsv OSError) st.

(** Lines 214-217. *)
Definition websites_to_scrape (self : PropertyMarketIdentifier) : list string :=
  if existsb (String.eqb "all") (websites self)
  then ["magicbricks"; "makaan"; "commonfloor"]
  else websites self.

(** Lines 224-226. *)
Definition file_path (w : World) (self : PropertyMarketIdentifier) : string :=
  let website_names := PyStr.join "-" (websites_to_scrape self) in
  let filename :=
    city self +:+ "-" +:+ website_names +:+ "-" +:+ today w +:+ ".csv" in
  PyStr.path_join (output_dir self) filename.

(** Lines 219-233. *)
Definition scrape_properties_parallel (w : World) (self : PropertyMarketIdentifier)
    (evs : list (nat * Z)) (st : State) : Awaited unit * State :=
  let websites_to_scrape := websites_to_scrape self in
  match gather w self evs websites_to_scrape st with
  | (Completed property_data, st1) =>
      let all_property_data := concat property_data in
      let file_path := file_path w self in
      let st2 := save_to_csv w all_property_data file_path st1 in
      (Completed tt, logging INFO (DataSavedTo file_path) st2)
  | (Raised e, st1) => (Raised e, st1)
  | (Pending, st1) => (Pending, st1)
  end.

End Scraper.

(** ** The command line: [get_user_input] and the [__main__] block *)

Module Cli.
Import Py World Scraper.

(** The character [","]. *)
Definition comma : Ascii.ascii := Eval cbv in Ascii.ascii_of_nat 44.

(** [s.split(sep)] for a separator of one character. *)
Fixpoint split (sep : Ascii.ascii) (s : string) : list string :=
  match s with
  | EmptyString => [EmptyString]
  | String c s' =>
      if Ascii.eqb c sep then EmptyString :: split sep s'
      else
        match split sep s' with
        | item :: items => String c item :: items
        | [] => [String c EmptyString]
        end
  end.

(** [l.remove(x)]: the first occurrence goes.  The caller has checked
    that there is one. *)
Fixpoint remove (x : string) (l : list string) : list string :=
  match l with
  | [] => []
  | y :: l' => if String.eqb y x then l' else y :: remove x l'
  end.

(** Lines 259-274, from the two lines [input] returns.  [lower] is the
    one of ASCII text; the statements about [get_user_input] are made for
    ASCII lines. *)
Definition get_user_input (city_line websites_line : string) : string * list string :=
  let city := PyStr.lower (PyStr.strip city_line) in
  let websites := split comma (PyStr.lower (PyStr.strip websites_line)) in
  if existsb (String.eqb "all") websites
  then (city, remove "all" websites ++ ["magicbricks"; "makaan"; "commonfloor"])
  else (city, websites).

(** The lines the [__main__] block logs and prints, before formatting.
    [MemoryUsage] stands for the line with the two figures of
    [tracemalloc]. *)
Inductive Line : Type :=
| CityRequired
| WebsiteRequired
| InvalidChoice
| ErrorRunning (e : exn)
| MemoryUsage.

(** What a process leaves: the state of the scraper, and the lines the
    [__main__] block logged (after those of the run) and printed. *)
Record Outcome : Type :=
  { state : State; logged : list (Level * Line); printed : list Line }.

(** The names of lines 294. *)
Definition choices : list string := ["magicbricks"; "makaan"; "commonfloor"; "all"].

Definition complain (l : Line) (st : State) : Outcome :=
  {| state := st; logged := [(ERROR, l)]; printed := [l] |}.

(** Lines 285-319.  [mkdir] is what creating the output directory in
    [__init__] gives; [None] stands for a run that the events [evs] do
    not bring to its end. *)
Definition main (w : World) (mkdir : Result unit) (city_line websites_line : string)
    (evs : list (nat * Z)) (st : State) : option Outcome :=
  let '(city, websites) := get_user_input city_line websites_line in
  if String.eqb city EmptyString then Some (complain CityRequired st)
  else if match websites with [] => true | _ :: _ => false end
  then Some (complain WebsiteRequired st)
  else if existsb (fun website => negb (existsb (String.eqb website) choices)) websites
  then Some (complain InvalidChoice st)
  else
    let failed e st' :=
      Some {| state := st';
              logged := [(ERROR, ErrorRunning e); (INFO, MemoryUsage)];
              printed := [ErrorRunning e; MemoryUsage] |} in
    match mkdir with
    | Raise e => failed e st
    | Ok _ =>
        let self := {| websites := websites; city := city; output_dir := "data" |} in
        match scrape_properties_parallel w self evs st with
        | (Completed _, st') =>
            Some {| state := st'; logged := [(INFO, MemoryUsage)];
                    printed := [MemoryUsage] |}
        | (Raised e, st') => failed e st'
        | (Pending, _) => None
        end
    end.

End Cli.

(** ** [modules/property_market_scraper.py] *)

(** The packaged class has the magicbricks block of [scraper-5.py] word
    for word, no commonfloor, and a makaan block that differs in the
    currency string only. *)
Module Packaged.
Import Py Bs4 Extract World Scraper.

(** The string of line 124: the bytes of U+00E2, U+201A, U+00B9. *)
Definition currency : string :=
  PyStr.of_bytes [195; 162; 226; 128; 154; 194; 185]%nat.

(** Lines 90-131. *)
Definition makaan_listing (listing : Node) : Result (list Record) :=
  let owner_elements := find_all "div" (Some "seller-info") listing in
  let owners := map text owner_elements in
  let price_elements := find_all "td" (Some "price") listing in
  let price_elements := map (find "span" (Some "val")) price_elements in
  let* price_denominations :=
    comprehension (fun price => text_of (find "span" (Some "unit") price))
      (find_all "td" (Some "price") listing) in
  let* prices := comprehension text_of price_elements in
  let property_name_elements := find_all "div" (Some "seller-info") listing in
  let* property_name_elements :=
    comprehension (fun prop_name => text_of (find "a" (Some "seller-name") prop_name))
      property_name_elements in
  let prices :=
    map (fun '(price, price_denomination) => price +:+ " " +:+ price_denomination)
        (zip2 prices price_denominations) in
  Ok (map (fun '(owner, price, prop_name) =>
             record (PStr (PyStr.replace "BUILDER0" "" owner))
                    (PStr (currency +:+ price))
                    (PStr prop_name))
          (zip3 owners prices property_name_elements)).

(** Lines 51-131. *)
Definition extract (website : string) (soup : Node) : Result (list Record) :=
  let property_data_list := [] in
  if String.eqb website "magicbricks" then
    for_each (fun acc listing =>
                let* rs := magicbricks_listing listing in Ok (acc ++ rs))
             property_data_list
             (find_all "div" (Some "mb-srp__left") soup)
  else if String.eqb website "makaan" then
    for_each (fun acc listing =>
                let* rs := makaan_listing listing in Ok (acc ++ rs))
             property_data_list
             (find_all "div" (Some "search-result-wrap") soup)
  else Ok property_data_list.

(** Lines 19-22. *)
Definition base_url (self : PropertyMarketIdentifier) : gmap string string :=
  <["magicbricks" :=
      "https://www.magicbricks.com/ready-to-move-flats-in-" +:+ city self +:+ "-pppfs"]>
  (<["makaan" :=
      "https://www.makaan.com/" +:+ city self
        +:+ "-residential-property/buy-property-in-" +:+ city self +:+ "-city"]> ∅).

(** Lines 39-48. *)
Definition start (self : PropertyMarketIdentifier) (now : Z) (website : string)
    (st : State) : Turn * State :=
  let cached_data := AioCache.get now (cache_key self website) (cache st) in
  match cached_data with
  | Some (r :: data) => (Finished (Ok (r :: data)), st)
  | _ =>
      match base_url self !! website with
      | Some url => (Awaiting url, request url st)
      | None => (Finished (Raise (KeyError website)), st)
      end
  end.

(** Lines 48-139. *)
Definition resume (self : PropertyMarketIdentifier) (now : Z) (website : string)
    (fetched : Result Node) (st : State) : Result (list Record) * State :=
  let body :=
    let* soup := fetched in
    let* property_data_list := extract website soup in
    let* store :=
      AioCache.set now (cache_key self website) property_data_list 3600 (cache st) in
    Ok (property_data_list, store) in
  match body with
  | Ok (property_data_list, store) => (Ok property_data_list, set_cache store st)
  | Raise e =>
      if handled e
      then (Ok [], logging ERROR (ErrorScraping (PyStr.capitalize website) e) st)
      else (Raise e, st)
  end.

Definition scrape_properties (w : World) (self : PropertyMarketIdentifier)
    (t0 t1 : Z) (website : string) (st : State) : Result (list Record) * State :=
  match start self t0 website st with
  | (Finished r, st1) => (r, st1)
  | (Awaiting url, st1) => resume self t1 website (fetch_url w url) st1
  end.

End Packaged.

Import Py Bs4 Extract World Scraper.

(** * The vocabulary of the statements *)

(** What an extraction block can raise. *)
Definition parse_error (e : exn) : Prop := e = AttributeError \/ e = IndexError.

Definition has_keys (r : Record) : Prop :=
  map fst r = ["owner"; "price"; "property_name"].

(** Whether the cache serves a call at time [now]: the entry is there,
    not older than its [ttl], and truthy. *)
Definition served (self : PropertyMarketIdentifier) (now : Z) (website : string)
    (st : State) : option (list Record) :=
  match AioCache.get now (cache_key self website) (cache st) with
  | Some (r :: data) => Some (r :: data)
  | _ => None
  end.

(** A fresh resolution of [website] succeeds with [data]: the page is
    fetched, the extraction block returns [data] and the cache takes it. *)
Definition succeeds (w : World) (self : PropertyMarketIdentifier)
    (website : string) (data : list Record) : Prop :=
  exists url soup,
    base_url self !! website = Some url /\ fetch_url w url = Ok soup /\
    extract website soup = Ok data /\ AioCache.json_serializable data = true.

(** The fetch of [website] fails with the transport error [e]. *)
Definition fails (w : World) (self : PropertyMarketIdentifier)
    (website : string) (e : exn) : Prop :=
  exists url, base_url self !! website = Some url /\ fetch_url w url = Raise e.

Definition resolves (w : World) (self : PropertyMarketIdentifier)
    (website : string) (data : list Record) : Prop :=
  succeeds w self website data \/ (data = [] /\ exists e, fails w self website e).

(** The number of turns the events [evs] give to task [i]. *)
Fixpoint turns (i : nat) (evs : list (nat * Z)) : nat :=
  match evs with
  | [] => O
  | (j, _) :: evs' => ((if Nat.eqb j i then 1 else 0) + turns i evs')%nat
  end.

(** Every one of [n] tasks is given the two turns a call needs. *)
Definition fair (n : nat) (evs : list (nat * Z)) : bool :=
  forallb (fun i => Nat.leb 2 (turns i evs)) (seq 0 n).

Definition rank (t : Task) : nat :=
  match t with
  | Created _ => 0
  | Fetching _ _ => 1
  | Done _ => 2
  end%nat.

Definition rank_at (tasks : list Task) (j : nat) : nat :=
  match tasks !! j with
  | Some t => rank t
  | None => 2%nat
  end.

(** The invariant of a run of [gather] over the websites [ws] in which
    a fresh resolution of each [website] yields [expected website]. *)

Section Invariant.
Context (w : World) (self : PropertyMarketIdentifier).
Context (ws : list string) (expected : string -> list Record) (st0 : State).

Definition cache_ok (st : State) : Prop :=
  forall website entry,
    website ∈ ws -> cache st !! cache_key self website = Some entry ->
    AioCache.value entry = expected website.

Definition logged (st : State) (website : string) : Prop :=
  forall e, fails w self website e ->
            (ERROR, ErrorScraping (PyStr.capitalize website) e) ∈ log st.

Definition task_ok (st : State) (website : string) (t : Task) : Prop :=
  match t with
  | Created website' => website' = website
  | Fetching website' url => website' = website /\ base_url self !! website = Some url
  | Done r => r = Ok (expected website) /\ logged st website
  end.

Definition inv (tasks : list Task) (st : State) : Prop :=
  Forall2 (task_ok st) ws tasks /\ cache_ok st /\ files st = files st0
  /\ (forall m, m ∈ log st0 -> m ∈ log st).

End Invariant.

(** The listing containers of a page and, in a container, the nodes the
    owner, the price and the title are read from (lines 120-139 for
    magicbricks, lines 157-175 for makaan, where owner and title both
    come from the [seller-info] blocks). *)
Definition containers (website : string) (soup : Node) : list Node :=
  if String.eqb website "magicbricks"
  then find_all "div" (Some "mb-srp__left") soup
  else find_all "div" (Some "search-result-wrap") soup.

Definition listing_records (website : string) : Node -> Result (list Record) :=
  if String.eqb website "magicbricks" then magicbricks_listing else makaan_listing.

Definition owner_nodes (website : string) (listing : Node) : list Node :=
  if String.eqb website "magicbricks"
  then find_all "div" (Some "mb-srp__card__ads") listing
  else find_all "div" (Some "seller-info") listing.

Definition price_nodes (website : string) (listing : Node) : list Node :=
  if String.eqb website "magicbricks"
  then find_all "div" (Some "mb-srp__card__price--amount") listing
  else find_all "td" (Some "price") listing.

Definition title_nodes (website : string) (listing : Node) : list Node :=
  if String.eqb website "magicbricks"
  then find_all "h2" (Some "mb-srp__card--title") listing
  else find_all "div" (Some "seller-info") listing.

Definition missing_field (website : string) (listing : Node) : Prop :=
  owner_nodes website listing = [] \/ price_nodes website listing = []
  \/ title_nodes website listing = [].

(** The cells of the CSV line of a record. *)
Definition cells (r : Record) : list (option PyVal) :=
  [Pandas.getitem "owner" r; Pandas.getitem "price" r;
   Pandas.getitem "property_name" r].

(** * Sample pages and runs *)

Module Sample.

Definition document (contents : list Node) : Node := Tag "[document]" [] contents.

Definition pune : PropertyMarketIdentifier :=
  {| websites := ["magicbricks"; "makaan"]; city := "pune"; output_dir := "data" |}.

Definition magicbricks_url : string :=
  "https://www.magicbricks.com/ready-to-move-flats-in-pune-pppfs".

Definition makaan_url : string :=
  "https://www.makaan.com/pune-residential-property/buy-property-in-pune-city".

Definition csv_path : string := "data/pune-magicbricks-makaan-03-Nov-2026.csv".

(** A network that serves the given pages with status 200 and lets every
    other request time out. *)
Fixpoint serve (pages : list (string * Node)) (url : string) : FetchResult :=
  match pages with
  | [] => TimedOut
  | (u, page) :: pages' => if String.eqb u url then Response 200 page else serve pages' url
  end.

Definition world (pages : list (string * Node)) : World :=
  {| net := serve pages; today := "03-Nov-2026"; writable := fun _ => true |}.

(** One card of a magicbricks listing block. *)
Definition card (owner price title : string) : list Node :=
  [ Tag "div" ["mb-srp__card__ads"]
      [Tag "div" ["mb-srp__card__ads--name"] [NavigableString owner]];
    Tag "div" ["mb-srp__card__price--amount"] [NavigableString price];
    Tag "h2" ["mb-srp__card--title"] [NavigableString title] ].

Definition magicbricks_page : Node :=
  document [Tag "div" ["mb-srp__left"] (card "Owner: Omkar" "1.2 Cr" "2 BHK Flat")].

(** A page without any listing block. *)
Definition no_listings : Node :=
  document [Tag "p" ["no-results"] [NavigableString "No properties found"]].

Definition seller (name : string) : Node :=
  Tag "div" ["seller-info"]
    [Tag "a" ["seller-name"] [NavigableString name];
     Tag "span" ["seller-type"] [NavigableString "BUILDER0"]].

Definition price_cell (val unit : string) : Node :=
  Tag "td" ["price"]
    [Tag "span" ["val"] [NavigableString val];
     Tag "span" ["unit"] [NavigableString unit]].

Definition result_wrap (seller_info price : Node) : Node :=
  Tag "div" ["search-result-wrap"] [seller_info; Tag "table" [] [Tag "tr" [] [price]]].

Definition makaan_page : Node :=
  document [result_wrap (seller "Lodha") (price_cell "85" "L")].

(** The price cell has its value but no [unit] span. *)
Definition makaan_page_no_unit : Node :=
  document
    [result_wrap (seller "Lodha")
       (Tag "td" ["price"] [Tag "span" ["val"] [NavigableString "85"]])].

(** The second listing has an owner and a price; its [seller-info] block
    has no [seller-name] link, so its title is missing. *)
Definition makaan_page_no_title : Node :=
  document
    [result_wrap (seller "Lodha") (price_cell "85" "L");
     result_wrap (Tag "div" ["seller-info"] [NavigableString "Agent"])
       (price_cell "40" "L")].

Definition lodha : Record :=
  record (PStr "Lodha") (PStr (rupee +:+ "85 L")) (PStr "Lodha").

Definition omkar : Record :=
  record (PStr "mkar") (PStr "1.2 Cr") (PStr "2 BHK Flat").

(** Both tasks run up to their request, then the answers arrive, the
    second one first. *)
Definition schedule : list (nat * Z) :=
  [(0%nat, 0); (1%nat, 0); (1%nat, 2); (0%nat, 3)].

(** A state whose cache holds an empty result for makaan, stored at
    time [0] for an hour. *)
Definition cached_empty : State :=
  set_cache
    (<[cache_key pune "makaan" :=
        {| AioCache.value := []; AioCache.stored_at := 0; AioCache.ttl := 3600 |}]> ∅)
    initial.

End Sample.

(** * Further vocabulary *)

(** The listing containers the block of a website walks. *)
Definition blocks (website : string) (soup : Node) : list Node :=
  if String.eqb website "commonfloor"
  then find_all "div" (Some "snb-content-list") soup
  else containers website soup.

(** The number of triples [zip] can make in a listing container. *)
Definition triples (website : string) (listing : Node) : nat :=
  Nat.min (length (owner_nodes website listing))
    (Nat.min (length (price_nodes website listing))
       (length (title_nodes website listing))).

(** An owner block of magicbricks without its name block. *)
Definition nameless_ads (listing : Node) : Prop :=
  exists ads, ads ∈ find_all "div" (Some "mb-srp__card__ads") listing
              /\ find "div" (Some "mb-srp__card__ads--name") ads = None.

(** A price cell of makaan without its value or its unit, or a seller
    block without its name link. *)
Definition broken_makaan (listing : Node) : Prop :=
  (exists td, td ∈ find_all "td" (Some "price") listing
              /\ (find "span" (Some "val") td = None
                  \/ find "span" (Some "unit") td = None))
  \/ (exists s, s ∈ find_all "div" (Some "seller-info") listing
                /\ find "a" (Some "seller-name") s = None).

(** A record whose three values are strings. *)
Definition textual (r : Record) : Prop :=
  exists owner price property_name,
    r = record (PStr owner) (PStr price) (PStr property_name).

Definition cache_textual (st : State) : Prop :=
  forall key entry, cache st !! key = Some entry ->
                    Forall textual (AioCache.value entry).

(** A line [scrape_properties] logs. *)
Definition scraping_error (m : Level * Message) : Prop :=
  exists website e, m = (ERROR, ErrorScraping website e) /\ handled e = true.

(** The tasks that have not had their first turn. *)
Fixpoint created (tasks : list Task) : nat :=
  match tasks with
  | [] => O
  | Created _ :: tasks' => S (created tasks')
  | _ :: tasks' => created tasks'
  end.

(** How many elements of a list pass a test. *)
Fixpoint count_if {A} (p : A -> bool) (l : list A) : nat :=
  match l with
  | [] => O
  | x :: l' => ((if p x then 1 else 0) + count_if p l')%nat
  end.

(** Whether [website] is registered under [url]. *)
Definition asks (self : PropertyMarketIdentifier) (url website : string) : bool :=
  match base_url self !! website with
  | Some u => String.eqb url u
  | None => false
  end.

(** A task that has not had its first turn and whose website is
    registered under [url]. *)
Definition unstarted (self : PropertyMarketIdentifier) (url : string) (t : Task)
  : bool :=
  match t with
  | Created website => asks self url website
  | _ => false
  end.

(** The exceptions a call can end with: the [KeyError] of a website
    that is not registered, and what extraction and serialization
    raise. *)
Definition call_exception (self : PropertyMarketIdentifier) (ws : list string)
    (e : exn) : Prop :=
  (exists website, website ∈ ws /\ base_url self !! website = None
                   /\ e = KeyError website)
  \/ e = AttributeError \/ e = IndexError \/ e = TypeError.

(** What the tasks of a run over [ws] can be. *)
Definition task_sound (self : PropertyMarketIdentifier) (ws : list string)
    (t : Task) : Prop :=
  match t with
  | Created website => website ∈ ws
  | Fetching website url => website ∈ ws /\ base_url self !! website = Some url
  | Done (Raise e) => call_exception self ws e
  | Done (Ok _) => True
  end.

(** The character ["/"]. *)
Definition slash : Ascii.ascii := Eval cbv in Ascii.ascii_of_nat 47.

(** Text without a byte above 127. *)
Fixpoint ascii_text (s : string) : bool :=
  match s with
  | EmptyString => true
  | String c s' => (Ascii.nat_of_ascii c <? 128)%nat && ascii_text s'
  end.

Definition sites : list string := ["magicbricks"; "makaan"; "commonfloor"].

(** More sample pages. *)
Module Specimen.

Definition commonfloor_url : string :=
  "https://www.commonfloor.com/pune-property/projects".

Definition commonfloor_page : Node :=
  Sample.document
    [Tag "div" ["snb-content-list"]
       [Tag "h3" ["proSnbp"] [NavigableString " Godrej "];
        Tag "table" []
          [Tag "tbody" []
             [Tag "tr" [] [Tag "td" [] [Tag "i" ["icon-inr"] []; NavigableString "50 L"]]]];
        Tag "div" ["snb-projecttile-top"]
          [Tag "a" [] [Tag "h2" [] [NavigableString "Godrej Greens"]]]]].

Definition everything : PropertyMarketIdentifier :=
  {| websites := ["magicbricks"; "both"]; city := "pune"; output_dir := "data" |}.

Definition root : PropertyMarketIdentifier :=
  {| websites := ["makaan"]; city := "/tmp/pune"; output_dir := "data" |}.

(** A makaan listing with its seller block and no price cell. *)
Definition priceless : Node := Tag "div" ["search-result-wrap"] [Sample.seller "Agent"].

(** A complete listing followed by the one without a price. *)
Definition makaan_page_no_price : Node :=
  Sample.document
    [Sample.result_wrap (Sample.seller "Lodha") (Sample.price_cell "85" "L");
     priceless].

(** A scraper of magicbricks and commonfloor. *)
Definition mixed : PropertyMarketIdentifier :=
  {| websites := ["magicbricks"; "commonfloor"]; city := "pune"; output_dir := "data" |}.

(** A seller block that holds a comment and a script beside its text, in
    a listing of makaan. *)
Definition seller_scripted : Node :=
  Tag "div" ["seller-info"]
    [Tag "a" ["seller-name"] [NavigableString "Lodha"; OtherString Comment "verified"];
     Tag "script" [] [OtherString Script "var a=1;"]].

Definition makaan_page_scripted : Node :=
  Sample.document [Sample.result_wrap seller_scripted (Sample.price_cell "85" "L")].

(** A scraper that names makaan twice. *)
Definition twice : PropertyMarketIdentifier :=
  {| websites := ["makaan"; "makaan"]; city := "pune"; output_dir := "data" |}.

End Specimen.

(** The name of the CSV file (lines 224-225). *)
Definition filename (w : World) (self : PropertyMarketIdentifier) : string :=
  city self +:+ "-" +:+ PyStr.join "-" (websites_to_scrape self)
    +:+ "-" +:+ today w +:+ ".csv".

Fixpoint count_char (c : Ascii.ascii) (s : string) : nat :=
  match s with
  | EmptyString => O
  | String d s' => ((if Ascii.eqb d c then 1 else 0) + count_char c s')%nat
  end.

(** The makaan record with another currency string. *)
Definition recurrency (r r' : Record) : Prop :=
  exists owner price property_name,
    r = record (PStr owner) (PStr (rupee +:+ price)) (PStr property_name)
    /\ r' = record (PStr owner) (PStr (Packaged.currency +:+ price))
              (PStr property_name).

(** The two results are the same exception, or lists of records that
    differ in the currency string only. *)
Definition same_but_currency (r r' : Result (list Record)) : Prop :=
  match r, r' with
  | Ok data, Ok data' => Forall2 recurrency data data'
  | Raise e, Raise e' => e = e'
  | _, _ => False
  end.

(** * Properties *)

(** ** Exceptions of the extraction blocks *)

Lemma bind_Ok {A B} (r : Result A) (k : A -> Result B) b :
  bind r k = Ok b -> exists a, r = Ok a /\ k a = Ok b.
Proof. destruct r as [a|e]; simpl; [eauto | discriminate]. Qed.

Lemma bind_Raise {A B} (r : Result A) (k : A -> Result B) e :
  bind r k = Raise e -> r = Raise e \/ exists a, r = Ok a /\ k a = Raise e.
Proof. destruct r as [a|e']; simpl; [eauto | intros [= ->]; auto]. Qed.

Section ResultFacts.
Context {A B : Type}.

Lemma comprehension_Raise (f : A -> Result B) l e :
  comprehension f l = Raise e -> exists x, x ∈ l /\ f x = Raise e.
Proof.
  induction l as [|x l IH]; simpl; [discriminate|].
  intros H. apply bind_Raise in H as [H | (y & Hy & H)].
  - exists x. split; [left | done].
  - apply bind_Raise in H as [H | (ys & _ & H)]; [|discriminate].
    destruct (IH H) as (x' & Hin & Hx'). exists x'. split; [by right | done].
Qed.

Lemma comprehension_length (f : A -> Result B) l l' :
  comprehension f l = Ok l' -> length l' = length l.
Proof.
  revert l'. induction l as [|x l IH]; simpl; intros l' H.
  - by injection H as <-.
  - apply bind_Ok in H as (y & _ & H). apply bind_Ok in H as (ys & Hys & H).
    injection H as <-. simpl. f_equal. by apply IH.
Qed.

Lemma for_each_Raise (body : B -> A -> Result B) acc l e :
  for_each body acc l = Raise e ->
  exists acc' x, x ∈ l /\ body acc' x = Raise e.
Proof.
  revert acc. induction l as [|x l IH]; simpl; intros acc; [discriminate|].
  intros H. apply bind_Raise in H as [H | (acc' & _ & H)].
  - exists acc, x. split; [left | done].
  - destruct (IH _ H) as (acc'' & x' & Hin & Hx').
    exists acc'', x'. split; [by right | done].
Qed.

End ResultFacts.

(** [for x in l: acc.extend(f x)] yields the concatenation of the [f x]. *)
Lemma for_each_extend {A R} (f : A -> Result (list R)) (l : list A) acc out :
  for_each (fun acc x => let* rs := f x in Ok (acc ++ rs)) acc l = Ok out ->
  exists per, Forall2 (fun x rs => f x = Ok rs) l per /\ out = acc ++ concat per.
Proof.
  revert acc. induction l as [|x l IH]; simpl; intros acc H.
  - injection H as <-. exists []. split; [constructor | by rewrite app_nil_r].
  - apply bind_Ok in H as (acc' & Hx & H).
    apply bind_Ok in Hx as (rs & Hrs & [= <-]).
    destruct (IH _ H) as (per & Hper & ->).
    exists (rs :: per). split; [by constructor | by rewrite <- app_assoc].
Qed.

Lemma text_of_Raise x e : text_of x = Raise e -> e = AttributeError.
Proof. destruct x; simpl; congruence. Qed.

Lemma find_in_Raise name cls x e : find_in name cls x = Raise e -> e = AttributeError.
Proof. destruct x; simpl; congruence. Qed.

Lemma magicbricks_listing_Raise listing e :
  magicbricks_listing listing = Raise e -> e = AttributeError.
Proof.
  unfold magicbricks_listing. intros H.
  apply bind_Raise in H as [H | (? & _ & H)]; [|discriminate].
  apply comprehension_Raise in H as (? & _ & H).
  apply bind_Raise in H as [H | (? & _ & H)]; [|discriminate].
  by apply text_of_Raise in H.
Qed.

Lemma makaan_listing_Raise listing e :
  makaan_listing listing = Raise e -> e = AttributeError.
Proof.
  unfold makaan_listing. intros H.
  apply bind_Raise in H as [H | (? & _ & H)].
  { apply comprehension_Raise in H as (? & _ & H). by apply text_of_Raise in H. }
  apply bind_Raise in H as [H | (? & _ & H)].
  { apply comprehension_Raise in H as (? & _ & H). by apply text_of_Raise in H. }
  apply bind_Raise in H as [H | (? & _ & H)]; [|discriminate].
  apply comprehension_Raise in H as (? & _ & H). by apply text_of_Raise in H.
Qed.

Lemma commonfloor_listing_Raise listing e :
  commonfloor_listing listing = Raise e -> parse_error e.
Proof.
  unfold commonfloor_listing, parse_error. intros H.
  apply bind_Raise in H as [H | (? & _ & H)].
  { left. by apply text_of_Raise in H. }
  apply bind_Raise in H as [H | (tds & _ & H)].
  { left. destruct (find "tbody" None listing); congruence. }
  apply bind_Raise in H as [H | (? & _ & H)].
  { right. destruct tds; congruence. }
  apply bind_Raise in H as [H | (? & _ & H)].
  { left. by apply find_in_Raise in H. }
  apply bind_Raise in H as [H | (? & _ & H)].
  { left. by apply find_in_Raise in H. }
  apply bind_Raise in H as [H | (? & _ & H)]; [|discriminate].
  left. by apply text_of_Raise in H.
Qed.

Lemma extract_Raise website soup e :
  extract website soup = Raise e -> parse_error e.
Proof.
  unfold extract. intros H.
  destruct (String.eqb website "commonfloor").
  { apply for_each_Raise in H as (? & ? & _ & H).
    apply bind_Raise in H as [H | (? & _ & H)]; [|discriminate].
    by apply commonfloor_listing_Raise in H. }
  destruct (String.eqb website "magicbricks").
  { apply for_each_Raise in H as (? & ? & _ & H).
    apply bind_Raise in H as [H | (? & _ & H)]; [|discriminate].
    left. by apply magicbricks_listing_Raise in H. }
  destruct (String.eqb website "makaan"); [|discriminate].
  apply for_each_Raise in H as (? & ? & _ & H).
  apply bind_Raise in H as [H | (? & _ & H)]; [|discriminate].
  left. by apply makaan_listing_Raise in H.
Qed.

Lemma parse_error_not_handled e : parse_error e -> handled e = false.
Proof. by intros [-> | ->]. Qed.

Lemma fetch_url_handled w url e : fetch_url w url = Raise e -> handled e = true.
Proof.
  unfold fetch_url. destruct (net w url) as [status page| |]; [|by intros [= <-]..].
  destruct (400 <=? status); [by intros [= <-] | discriminate].
Qed.

(** ** The shape of the records *)

Lemma for_each_invariant {A S} (P : S -> Prop) (body : S -> A -> Result S) l :
  (forall acc x acc', P acc -> body acc x = Ok acc' -> P acc') ->
  forall acc out, P acc -> for_each body acc l = Ok out -> P out.
Proof.
  intros Hstep. induction l as [|x l IH]; simpl; intros acc out Hacc H.
  - by injection H as <-.
  - apply bind_Ok in H as (acc' & Hx & H). eauto.
Qed.

Lemma magicbricks_listing_keys listing rs :
  magicbricks_listing listing = Ok rs -> Forall has_keys rs.
Proof.
  unfold magicbricks_listing. intros H.
  apply bind_Ok in H as (owners & _ & [= <-]).
  apply Forall_map, Forall_forall. by intros [[o p] n] _.
Qed.

Lemma makaan_listing_keys listing rs :
  makaan_listing listing = Ok rs -> Forall has_keys rs.
Proof.
  unfold makaan_listing. intros H.
  apply bind_Ok in H as (? & _ & H). apply bind_Ok in H as (? & _ & H).
  apply bind_Ok in H as (? & _ & [= <-]).
  apply Forall_map, Forall_forall. by intros [[o p] n] _.
Qed.

Lemma commonfloor_listing_keys listing r :
  commonfloor_listing listing = Ok r -> has_keys r.
Proof.
  unfold commonfloor_listing. intros H.
  repeat (apply bind_Ok in H as (? & _ & H)). by injection H as <-.
Qed.

Lemma extract_keys website soup data :
  extract website soup = Ok data -> Forall has_keys data.
Proof.
  unfold extract.
  destruct (String.eqb website "commonfloor").
  { apply for_each_invariant; [|constructor].
    intros acc x acc' Hacc H. apply bind_Ok in H as (r & Hr & [= <-]).
    apply Forall_app. split; [done|].
    constructor; [by apply commonfloor_listing_keys in Hr | constructor]. }
  destruct (String.eqb website "magicbricks").
  { apply for_each_invariant; [|constructor].
    intros acc x acc' Hacc H. apply bind_Ok in H as (rs & Hrs & [= <-]).
    apply Forall_app. split; [done | by apply magicbricks_listing_keys in Hrs]. }
  destruct (String.eqb website "makaan"); [|by intros [= <-]].
  apply for_each_invariant; [|constructor].
  intros acc x acc' Hacc H. apply bind_Ok in H as (rs & Hrs & [= <-]).
  apply Forall_app. split; [done | by apply makaan_listing_keys in Hrs].
Qed.

(** ** The registry of URLs and the cache keys *)

Lemma base_url_registered self website url :
  base_url self !! website = Some url ->
  website = "magicbricks" \/ website = "makaan" \/ website = "commonfloor".
Proof.
  unfold base_url. intros H.
  apply lookup_insert_Some in H as [[<- _] | [_ H]]; [by left|].
  apply lookup_insert_Some in H as [[<- _] | [_ H]]; [by right; left|].
  apply lookup_insert_Some in H as [[<- _] | [_ H]]; [by right; right|].
  by rewrite lookup_empty in H.
Qed.

Lemma length_append (a b : string) :
  String.length (a +:+ b) = (String.length a + String.length b)%nat.
Proof. induction a as [|c a IH]; simpl; [done | by rewrite IH]. Qed.

Lemma append_cancel_r (a b s : string) : a +:+ s = b +:+ s -> a = b.
Proof.
  revert b. induction a as [|c a IH]; intros [|d b] H; simpl in *.
  - done.
  - apply (f_equal String.length) in H. simpl in H. rewrite ?length_append in H. simpl in H. lia.
  - apply (f_equal String.length) in H. simpl in H. rewrite ?length_append in H. simpl in H. lia.
  - injection H as -> H. f_equal. by apply IH.
Qed.

Lemma cache_key_inj self a b : cache_key self a = cache_key self b -> a = b.
Proof. unfold cache_key. apply append_cancel_r. Qed.

(** ** The two turns of [scrape_properties] *)

Lemma start_served self now website st data :
  served self now website st = Some data ->
  start self now website st = (Finished (Ok data), st).
Proof.
  unfold served, start.
  destruct (AioCache.get _ _ _) as [[|r d]|]; [discriminate | | discriminate].
  by intros [= <-].
Qed.

Lemma start_not_served self now website st url :
  served self now website st = None ->
  base_url self !! website = Some url ->
  start self now website st = (Awaiting url, request url st).
Proof.
  unfold served, start. intros Hs ->.
  by destruct (AioCache.get _ _ _) as [[|r d]|].
Qed.

Lemma start_Awaiting self now website st url st' :
  start self now website st = (Awaiting url, st') ->
  served self now website st = None /\ base_url self !! website = Some url
  /\ st' = request url st.
Proof.
  unfold served, start.
  destruct (AioCache.get _ _ _) as [[|r d]|]; [|discriminate|];
    destruct (base_url self !! website); intros [= <- <-] || discriminate; done.
Qed.

Lemma resume_fetch_failed self now website st e :
  handled e = true ->
  resume self now website (Raise e) st
  = (Ok [], logging ERROR (ErrorScraping (PyStr.capitalize website) e) st).
Proof. unfold resume. simpl. by intros ->. Qed.

Lemma resume_extract_failed self now website soup st e :
  extract website soup = Raise e ->
  resume self now website (Ok soup) st = (Raise e, st).
Proof.
  unfold resume. simpl. intros H. rewrite H. simpl.
  by rewrite (parse_error_not_handled e (extract_Raise _ _ _ H)).
Qed.

Lemma resume_stored self now website soup st data :
  extract website soup = Ok data ->
  AioCache.json_serializable data = true ->
  resume self now website (Ok soup) st
  = (Ok data,
     set_cache (<[cache_key self website :=
                   {| AioCache.value := data; AioCache.stored_at := now;
                      AioCache.ttl := 3600 |}]> (cache st)) st).
Proof.
  intros Hdata Hjson. unfold resume. simpl. rewrite Hdata. simpl.
  unfold AioCache.set. by rewrite Hjson.
Qed.

(** ** Runs of [gather] in which every call resolves *)

Lemma get_Some now key store v :
  AioCache.get now key store = Some v ->
  exists entry, store !! key = Some entry /\ AioCache.value entry = v
                /\ AioCache.live now entry = true.
Proof.
  unfold AioCache.get. destruct (store !! key) as [entry|]; [|discriminate].
  destruct (AioCache.live now entry) eqn:Hlive; [|discriminate].
  intros [= <-]. eauto.
Qed.

Section Resolving.
Context (w : World) (self : PropertyMarketIdentifier).
Context (ws : list string) (expected : string -> list Record) (st0 : State).
Hypothesis Hres : forall website, website ∈ ws -> resolves w self website (expected website).

Local Abbreviation cache_ok := (cache_ok self ws expected).
Local Abbreviation logged := (logged w self).
Local Abbreviation task_ok := (task_ok w self expected).
Local Abbreviation inv := (inv w self ws expected st0).

Lemma registered_in website : website ∈ ws -> exists url, base_url self !! website = Some url.
Proof.
  intros Hin. destruct (Hres _ Hin) as [(url & ? & ? & _) | (_ & e & url & ? & _)]; eauto.
Qed.

Lemma fails_expected website e :
  website ∈ ws -> fails w self website e -> expected website = [].
Proof.
  intros Hin (url & Hurl & Hfetch).
  destruct (Hres _ Hin) as [(url' & soup & Hurl' & Hfetch' & _) | [? _]]; [|done].
  congruence.
Qed.

Lemma task_ok_log st st' website t :
  (forall m, m ∈ log st -> m ∈ log st') ->
  task_ok st website t -> task_ok st' website t.
Proof.
  intros Hlog. destruct t as [| |r]; simpl; [done..|].
  intros [-> Hl]. split; [done|]. intros e He. apply Hlog, Hl, He.
Qed.

Lemma start_ok now website st :
  website ∈ ws -> cache_ok st ->
  (start self now website st = (Finished (Ok (expected website)), st)
   /\ expected website <> [])
  \/ (exists url, base_url self !! website = Some url
                  /\ start self now website st = (Awaiting url, request url st)).
Proof.
  intros Hin Hcache. destruct (served self now website st) as [data|] eqn:Hs.
  - left. pose proof (start_served _ _ _ _ _ Hs) as Hstart.
    unfold served in Hs.
    destruct (AioCache.get _ _ _) as [[|r d]|] eqn:Hget; try discriminate.
    injection Hs as <-.
    apply get_Some in Hget as (entry & Hentry & Hvalue & _).
    rewrite <- (Hcache _ _ Hin Hentry), Hvalue. by split.
  - right. destruct (registered_in _ Hin) as [url Hurl].
    exists url. split; [done|]. by apply start_not_served.
Qed.

Lemma resume_ok now website url st :
  website ∈ ws -> base_url self !! website = Some url -> cache_ok st ->
  exists st',
    resume self now website (fetch_url w url) st = (Ok (expected website), st')
    /\ cache_ok st' /\ files st' = files st
    /\ (forall m, m ∈ log st -> m ∈ log st') /\ logged st' website.
Proof.
  intros Hin Hurl Hcache.
  destruct (Hres _ Hin)
    as [(url' & soup & Hurl' & Hfetch & Hdata & Hjson) | (Hnil & e & url' & Hurl' & Hfetch)];
    assert (url' = url) as -> by congruence.
  - rewrite Hfetch, (resume_stored _ _ _ _ _ _ Hdata Hjson).
    eexists. split; [done|]. split_and!; [|done|done|].
    + intros website' entry Hin'. simpl.
      destruct (decide (cache_key self website = cache_key self website')) as [Heq|Hne].
      * rewrite Heq, lookup_insert_eq. intros [= <-]. simpl.
        by rewrite (cache_key_inj _ _ _ Heq).
      * rewrite lookup_insert_ne by done. by apply Hcache.
    + intros e (url2 & Hurl2 & Hfetch2). congruence.
  - rewrite Hfetch, resume_fetch_failed by (by eapply fetch_url_handled).
    eexists. split; [by rewrite Hnil|]. split_and!; [done|done| |].
    + intros m Hm. simpl. apply elem_of_app. by left.
    + intros e' (url2 & Hurl2 & Hfetch2). simpl.
      assert (e' = e) as -> by congruence.
      apply elem_of_app. right. apply list_elem_of_singleton. done.
Qed.

Lemma rank_insert (tasks : list Task) i t tk :
  tasks !! i = Some t -> (Nat.min 2 (rank t + 1) <= rank tk)%nat ->
  forall j, (Nat.min 2 (rank_at tasks j + (if Nat.eqb i j then 1 else 0))
             <= rank_at (<[i := tk]> tasks) j)%nat.
Proof.
  intros Ht Hle j. unfold rank_at.
  destruct (Nat.eqb_spec i j) as [<-|Hne].
  - rewrite Ht, list_lookup_insert_eq by (by eapply lookup_lt_Some). done.
  - rewrite list_lookup_insert_ne by done. destruct (tasks !! j); lia.
Qed.

Lemma rank_idle (tasks : list Task) i :
  (forall t, tasks !! i = Some t -> rank t = 2%nat) ->
  forall j, (Nat.min 2 (rank_at tasks j + (if Nat.eqb i j then 1 else 0))
             <= rank_at tasks j)%nat.
Proof.
  intros Hi j. unfold rank_at. destruct (Nat.eqb_spec i j) as [<-|Hne].
  - destruct (tasks !! i) as [t|]; [rewrite (Hi t eq_refl)|]; lia.
  - destruct (tasks !! j); lia.
Qed.

Lemma turn_inv ev tasks st tasks' st' :
  inv tasks st -> turn w self ev tasks st = (tasks', st') ->
  inv tasks' st'
  /\ forall j, (Nat.min 2 (rank_at tasks j + (if Nat.eqb (fst ev) j then 1 else 0))
               <= rank_at tasks' j)%nat.
Proof.
  destruct ev as [i now]. intros (Htasks & Hcache & Hfiles & Hlog) Hturn.
  unfold turn in Hturn. simpl fst.
  pose proof (rank_insert tasks i) as Hrank.
  pose proof (rank_idle tasks i) as Hidle.
  destruct (tasks !! i) as [t|] eqn:Hi; cycle 1.
  { injection Hturn as <- <-. split; [done|]. by apply Hidle. }
  destruct (Forall2_lookup_r _ _ _ _ _ Htasks Hi) as (website & Hws & Hok).
  assert (Hin : website ∈ ws) by (by eapply list_elem_of_lookup_2).
  assert (Hins : forall tk st1,
             (forall m, m ∈ log st -> m ∈ log st1) -> task_ok st1 website tk ->
             Forall2 (task_ok st1) ws (<[i := tk]> tasks)).
  { intros tk st1 Hgrow Htk. rewrite <- (list_insert_id ws i website) by done.
    apply Forall2_insert; [|done].
    eapply Forall2_impl; [exact Htasks|]. intros ? ?. by apply task_ok_log. }
  destruct t as [website'|website' url|r]; simpl in Hok.
  - subst website'.
    destruct (start_ok now website st Hin Hcache) as [[Hstart Hne] | (url & Hurl & Hstart)];
      rewrite Hstart in Hturn; injection Hturn as <- <-.
    + split; [|apply (Hrank _ _ eq_refl); simpl; lia].
      split_and!; [|done..]. apply Hins; [done|]. split; [done|].
      intros e He. by rewrite (fails_expected _ _ Hin He) in Hne.
    + split; [|apply (Hrank _ _ eq_refl); simpl; lia].
      split_and!; [|done..]. apply Hins; [done|]. by split.
  - destruct Hok as [-> Hurl].
    destruct (resume_ok now website url st Hin Hurl Hcache)
      as (st1 & Hresume & Hcache1 & Hfiles1 & Hlog1 & Hlogged).
    rewrite Hresume in Hturn. injection Hturn as <- <-.
    split; [|apply (Hrank _ _ eq_refl); simpl; lia].
    split_and!; [by apply Hins|done|congruence|auto].
  - injection Hturn as <- <-. split; [done|]. apply Hidle. by intros t [= <-].
Qed.

Lemma inv_not_raised st l tasks :
  Forall2 (task_ok st) l tasks -> raised tasks = None.
Proof.
  induction 1 as [|website t l' tasks' Hok _ IH]; [done|].
  destruct t as [| |[data|e]]; simpl in *; auto.
  destruct Hok as [Hok _]. discriminate Hok.
Qed.

Lemma run_inv evs tasks st tasks' st' :
  inv tasks st -> run w self evs tasks st = (tasks', st') ->
  inv tasks' st'
  /\ forall j, (Nat.min 2 (rank_at tasks j + turns j evs) <= rank_at tasks' j)%nat.
Proof.
  revert tasks st. induction evs as [|ev evs IH]; intros tasks st Hinv Hrun.
  - simpl in Hrun. assert ((tasks, st) = (tasks', st')) as [= <- <-]
      by (by destruct (raised tasks)).
    split; [done|]. intros j. change (turns j []) with 0%nat. lia.
  - simpl in Hrun. rewrite (inv_not_raised st ws tasks) in Hrun by apply Hinv.
    destruct (turn w self ev tasks st) as [tasks1 st1] eqn:Hturn.
    destruct (turn_inv _ _ _ _ _ Hinv Hturn) as [Hinv1 Hrank1].
    destruct (IH _ _ Hinv1 Hrun) as [Hinv' Hrank'].
    split; [done|]. intros j. specialize (Hrank1 j). specialize (Hrank' j).
    destruct ev as [i now].
    change (turns j ((i, now) :: evs))
      with ((if Nat.eqb i j then 1 else 0) + turns j evs)%nat.
    simpl fst in Hrank1. destruct (Nat.eqb i j); lia.
Qed.

Lemma results_done st l tasks :
  Forall2 (task_ok st) l tasks ->
  (forall j, (j < length l)%nat -> rank_at tasks j = 2%nat) ->
  results tasks = Some (map expected l).
Proof.
  induction 1 as [|website t l' tasks' Hok _ IH]; intros Hrank; [done|].
  pose proof (Hrank O ltac:(simpl; lia)) as H0. unfold rank_at in H0. simpl in H0.
  destruct t as [| |r]; try discriminate. destruct Hok as [-> _].
  simpl. rewrite IH; [done|].
  intros j Hj. apply (Hrank (S j)). simpl. lia.
Qed.

Lemma fair_turns n evs j : fair n evs = true -> (j < n)%nat -> (2 <= turns j evs)%nat.
Proof.
  unfold fair. rewrite forallb_forall. intros H Hj.
  apply Nat.leb_le, H, in_seq. lia.
Qed.

(** Whatever the order of the turns, when each call resolves and the
    cache holds nothing for the requested keys, [gather] completes with
    the results in the order of the requests. *)
Lemma gather_resolving evs :
  (forall website, website ∈ ws -> cache st0 !! cache_key self website = None) ->
  fair (length ws) evs = true ->
  exists st',
    gather w self evs ws st0 = (Completed (map expected ws), st')
    /\ files st' = files st0
    /\ (forall m, m ∈ log st0 -> m ∈ log st')
    /\ (forall website, website ∈ ws -> logged st' website).
Proof.
  intros Hfresh Hfair. unfold gather.
  assert (Hinv0 : inv (map Created ws) st0).
  { split_and!; [|intros website entry Hin; by rewrite Hfresh|done..].
    generalize ws. intros l. induction l; by constructor. }
  destruct (run w self evs (map Created ws) st0) as [tasks st'] eqn:Hrun.
  destruct (run_inv _ _ _ _ _ Hinv0 Hrun) as [(Htasks & Hcache & Hfiles & Hlog) Hrank].
  rewrite (inv_not_raised _ _ _ Htasks).
  assert (Hdone : forall j, (j < length ws)%nat -> rank_at tasks j = 2%nat).
  { intros j Hj. specialize (Hrank j). pose proof (fair_turns _ _ _ Hfair Hj).
    assert (rank_at tasks j <= 2)%nat; [|lia].
    unfold rank_at. destruct (tasks !! j) as [[]|]; simpl; lia. }
  rewrite (results_done _ _ _ Htasks Hdone).
  exists st'. split_and!; [done..|].
  intros website Hin. apply list_elem_of_lookup_1 in Hin as [j Hj].
  destruct (Forall2_lookup_l _ _ _ _ _ Htasks Hj) as (t & Ht & Hok).
  pose proof (Hdone j (lookup_lt_Some _ _ _ Hj)) as Hr.
  unfold rank_at in Hr. rewrite Ht in Hr.
  destruct t; try discriminate. apply Hok.
Qed.

End Resolving.

(** ** What [scrape_properties] catches *)

Lemma resume_requests self now website fetched st :
  requests (snd (resume self now website fetched st)) = requests st.
Proof.
  unfold resume. destruct (let* soup := fetched in _) as [[data store]|e]; [done|].
  by destruct (handled e).
Qed.

Lemma websites_to_scrape_registered self :
  (forall website, website ∈ websites self ->
                   exists url, base_url self !! website = Some url) ->
  websites_to_scrape self = websites self.
Proof.
  intros Hreg. unfold websites_to_scrape.
  destruct (existsb _ _) eqn:Hall; [|done].
  apply existsb_exists in Hall as (x & Hin & Hx).
  apply String.eqb_eq in Hx as <-.
  apply list_elem_of_In, Hreg in Hin as [url Hurl].
  by destruct (base_url_registered _ _ _ Hurl) as [? | [? | ?]].
Qed.

(** C1, as the code has it.  The [except] clause of [scrape_properties]
    names the transport errors only.  When the cache does not serve the
    call: a fetch that raises is turned into the empty list and one error
    line; an exception raised by the extraction block is none of the
    handled ones, it leaves [scrape_properties] as it is, with no log line
    and nothing cached, and in a run of that website [gather] delivers it
    to [scrape_properties_parallel], which ends with it. *)
Theorem only_transport_errors_are_caught :
  forall w self t0 t1 website st url,
    start self t0 website st = (Awaiting url, request url st) ->
    (forall e, fetch_url w url = Raise e ->
       scrape_properties w self t0 t1 website st
       = (Ok [], logging ERROR (ErrorScraping (PyStr.capitalize website) e)
                   (request url st)))
    /\ (forall soup e,
          fetch_url w url = Ok soup -> extract website soup = Raise e ->
          handled e = false
          /\ scrape_properties w self t0 t1 website st = (Raise e, request url st)
          /\ (websites self = [website] ->
              scrape_properties_parallel w self [(0%nat, t0); (0%nat, t1)] st
              = (Raised e, request url st))).
Proof.
  intros w self t0 t1 website st url Hstart. split.
  - intros e Hfetch. unfold scrape_properties. rewrite Hstart, Hfetch.
    apply resume_fetch_failed. by eapply fetch_url_handled.
  - intros soup e Hfetch Hextract.
    pose proof (resume_extract_failed self t1 website soup (request url st) e Hextract)
      as Hresume.
    split_and!.
    + apply parse_error_not_handled. by eapply extract_Raise.
    + unfold scrape_properties. by rewrite Hstart, Hfetch.
    + intros Hws. apply start_Awaiting in Hstart as Hs. destruct Hs as (_ & Hurl & _).
      unfold scrape_properties_parallel.
      rewrite websites_to_scrape_registered, Hws.
      * unfold gather. simpl. rewrite Hstart. simpl. by rewrite Hfetch, Hresume.
      * rewrite Hws. intros ? ->%list_elem_of_singleton. eauto.
Qed.

Lemma only_transport_errors_are_caught_witness :
  scrape_properties (Sample.world [(Sample.makaan_url, Sample.makaan_page_no_unit)])
    Sample.pune 0 1 "makaan" initial
  = (Raise AttributeError, request Sample.makaan_url initial).
Proof.
  apply (proj2 (only_transport_errors_are_caught
                  (Sample.world [(Sample.makaan_url, Sample.makaan_page_no_unit)])
                  Sample.pune 0 1 "makaan" initial Sample.makaan_url eq_refl)
           Sample.makaan_page_no_unit AttributeError); reflexivity.
Defined.

(** C1 fails on a makaan page whose price cell lacks the [unit] span:
    the [AttributeError] of the extraction block leaves
    [scrape_properties] and ends [scrape_properties_parallel]. *)
Lemma adapter_exception_propagates :
  let w := Sample.world [(Sample.magicbricks_url, Sample.magicbricks_page);
                         (Sample.makaan_url, Sample.makaan_page_no_unit)] in
  extract "makaan" Sample.makaan_page_no_unit = Raise AttributeError
  /\ fst (scrape_properties w Sample.pune 0 1 "makaan" initial) = Raise AttributeError
  /\ fst (scrape_properties_parallel w Sample.pune Sample.schedule initial)
     = Raised AttributeError.
Proof. vm_compute. done. Qed.

(** ** A failed fetch *)

Lemma served_later self t0 t2 website st st' :
  served self t0 website st = None -> t0 <= t2 -> cache st' = cache st ->
  served self t2 website st' = None.
Proof.
  unfold served, AioCache.get, AioCache.live. intros Hs Ht ->.
  destruct (cache st !! cache_key self website) as [entry|]; [|done].
  destruct (Z.ltb_spec t2 (AioCache.stored_at entry + AioCache.ttl entry)); [|done].
  destruct (Z.ltb_spec t0 (AioCache.stored_at entry + AioCache.ttl entry)); [|lia].
  by destruct (AioCache.value entry).
Qed.

(** C2, as the code has it.  When the fetch raises, [scrape_properties]
    returns the empty list, the value a page without listings gives too;
    the failure shows in one error line of the log.  The cache is left as
    it was, so any later resolution of the same website requests the page
    again. *)
Theorem transport_failure_returns_empty_uncached :
  forall w self t0 t1 website st url e,
    start self t0 website st = (Awaiting url, request url st) ->
    fetch_url w url = Raise e ->
    let st1 := logging ERROR (ErrorScraping (PyStr.capitalize website) e)
                 (request url st) in
    scrape_properties w self t0 t1 website st = (Ok [], st1)
    /\ cache st1 = cache st
    /\ forall t2, t0 <= t2 ->
         start self t2 website st1 = (Awaiting url, request url st1).
Proof.
  intros w self t0 t1 website st url e Hstart Hfetch st1. split_and!.
  - unfold scrape_properties. rewrite Hstart, Hfetch.
    apply resume_fetch_failed. by eapply fetch_url_handled.
  - done.
  - intros t2 Ht. apply start_Awaiting in Hstart as (Hs & Hurl & _).
    apply start_not_served; [|done]. by eapply served_later.
Qed.

Lemma transport_failure_returns_empty_uncached_witness :
  scrape_properties (Sample.world []) Sample.pune 0 10 "magicbricks" initial
  = (Ok [], logging ERROR (ErrorScraping "Magicbricks" TimeoutError)
              (request Sample.magicbricks_url initial)).
Proof.
  apply (transport_failure_returns_empty_uncached
           (Sample.world []) Sample.pune 0 10 "magicbricks" initial
           Sample.magicbricks_url TimeoutError); reflexivity.
Defined.

(** C2 fails: a fetch that times out and a page without listings give
    the same returned value. *)
Lemma failure_indistinguishable_from_empty :
  fetch_url (Sample.world []) Sample.magicbricks_url = Raise TimeoutError
  /\ fetch_url (Sample.world [(Sample.magicbricks_url, Sample.no_listings)])
       Sample.magicbricks_url = Ok Sample.no_listings
  /\ fst (scrape_properties (Sample.world []) Sample.pune 0 10 "magicbricks" initial)
     = fst (scrape_properties
              (Sample.world [(Sample.magicbricks_url, Sample.no_listings)])
              Sample.pune 0 10 "magicbricks" initial).
Proof. vm_compute. done. Qed.

(** ** Containers that lack a field *)

Lemma zip3_nil_l {A B C} (lb : list B) (lc : list C) : zip3 (@nil A) lb lc = [].
Proof. done. Qed.

Lemma zip3_nil_m {A B C} (la : list A) (lc : list C) : zip3 la (@nil B) lc = [].
Proof. by destruct la. Qed.

Lemma zip3_nil_r {A B C} (la : list A) (lb : list B) : zip3 la lb (@nil C) = [].
Proof. by destruct la, lb. Qed.

Lemma comprehension_nil {A B} (f : A -> Result B) l l' :
  comprehension f l = Ok l' -> l = [] -> l' = [].
Proof. intros H ->. by injection H as <-. Qed.

Lemma magicbricks_listing_missing listing rs :
  magicbricks_listing listing = Ok rs ->
  missing_field "magicbricks" listing -> rs = [].
Proof.
  unfold magicbricks_listing, missing_field, owner_nodes, price_nodes, title_nodes.
  simpl. intros H Hmissing.
  apply bind_Ok in H as (owners & Howners & [= <-]).
  destruct Hmissing as [Ho | [Hp | Ht]].
  - by rewrite (comprehension_nil _ _ _ Howners Ho).
  - rewrite Hp. change (map text []) with (@nil string). by rewrite zip3_nil_m.
  - rewrite Ht. change (map text []) with (@nil string). by rewrite zip3_nil_r.
Qed.

Lemma makaan_listing_missing listing rs :
  makaan_listing listing = Ok rs ->
  missing_field "makaan" listing -> rs = [].
Proof.
  unfold makaan_listing, missing_field, owner_nodes, price_nodes, title_nodes.
  simpl. intros H Hmissing.
  apply bind_Ok in H as (dens & Hdens & H).
  apply bind_Ok in H as (prices & Hprices & H).
  apply bind_Ok in H as (names & Hnames & [= <-]).
  destruct Hmissing as [Ho | [Hp | Ht]].
  - by rewrite Ho.
  - rewrite Hp in Hprices. simpl in Hprices. injection Hprices as <-.
    change (zip2 (@nil string) dens) with (@nil (string * string)).
    cbn [map]. by rewrite zip3_nil_m.
  - by rewrite (comprehension_nil _ _ _ Hnames Ht), zip3_nil_r.
Qed.

(** C3, as the code has it.  On a page on which the magicbricks or the
    makaan block does not raise, the output is the concatenation, in
    document order, of what each listing container yields on its own; a
    container in which no owner node, no price node or no title node is
    found yields nothing; and every record has the keys [owner], [price],
    [property_name], in this order. *)
Theorem partial_triple_exclusion :
  forall website soup data,
    website = "magicbricks" \/ website = "makaan" ->
    extract website soup = Ok data ->
    Forall has_keys data
    /\ exists per,
         Forall2 (fun listing rs =>
                    listing_records website listing = Ok rs
                    /\ (missing_field website listing -> rs = []))
                 (containers website soup) per
         /\ data = concat per.
Proof.
  intros website soup data Hsite Hextract.
  split; [by eapply extract_keys|].
  unfold extract in Hextract.
  destruct Hsite as [-> | ->]; simpl in Hextract;
    apply for_each_extend in Hextract as (per & Hper & ->);
    exists per; (split; [|done]);
    (eapply Forall2_impl; [exact Hper|]); intros listing rs Hrs; (split; [done|]).
  - by apply magicbricks_listing_missing.
  - by apply makaan_listing_missing.
Qed.

Lemma partial_triple_exclusion_witness :
  containers "makaan" Specimen.makaan_page_no_price
  = [Sample.result_wrap (Sample.seller "Lodha") (Sample.price_cell "85" "L");
     Specimen.priceless]
  /\ missing_field "makaan" Specimen.priceless
  /\ Forall has_keys [Sample.lodha]
  /\ exists per,
       Forall2 (fun listing rs =>
                  listing_records "makaan" listing = Ok rs
                  /\ (missing_field "makaan" listing -> rs = []))
               (containers "makaan" Specimen.makaan_page_no_price) per
       /\ [Sample.lodha] = concat per.
Proof.
  split; [reflexivity|]. split; [right; left; reflexivity|].
  apply (partial_triple_exclusion "makaan" Specimen.makaan_page_no_price [Sample.lodha]).
  - right. reflexivity.
  - reflexivity.
Defined.

(** C3 fails on a makaan page whose second listing has an owner and a
    price but no title link: the block raises, and the record of the
    first listing, which the page without the second one yields, is not
    emitted either. *)
Lemma missing_title_raises :
  extract "makaan" Sample.makaan_page_no_title = Raise AttributeError
  /\ extract "makaan" Sample.makaan_page = Ok [Sample.lodha]
  /\ containers "makaan" Sample.makaan_page_no_title
     = containers "makaan" Sample.makaan_page
       ++ [Sample.result_wrap (Tag "div" ["seller-info"] [NavigableString "Agent"])
             (Sample.price_cell "40" "L")].
Proof. vm_compute. done. Qed.

(** ** The cache within its hour *)

Lemma get_insert_live now key data t store :
  t <= now < t + 3600 ->
  AioCache.get now key
    (<[key := {| AioCache.value := data; AioCache.stored_at := t;
                 AioCache.ttl := 3600 |}]> store) = Some data.
Proof.
  intros Ht. unfold AioCache.get, AioCache.live. rewrite lookup_insert_eq. simpl.
  destruct (Z.ltb_spec now (t + 3600)); [done | lia].
Qed.

Lemma resume_Ok_cons self now website fetched st r data st1 :
  resume self now website fetched st = (Ok (r :: data), st1) ->
  st1 = set_cache (<[cache_key self website :=
                      {| AioCache.value := r :: data; AioCache.stored_at := now;
                         AioCache.ttl := 3600 |}]> (cache st)) st.
Proof.
  unfold resume. destruct (let* soup := fetched in _) as [[data' store]|e] eqn:Hbody.
  - intros [= -> <-]. f_equal.
    apply bind_Ok in Hbody as (soup & _ & Hbody).
    apply bind_Ok in Hbody as (data'' & _ & Hbody).
    apply bind_Ok in Hbody as (store' & Hset & [= -> ->]).
    unfold AioCache.set in Hset.
    destruct (AioCache.json_serializable _); [|discriminate]. by injection Hset as <-.
  - by destruct (handled e).
Qed.

(** C4, as the code has it.  When the first resolution requests the page
    and returns a sequence that is not empty, a second resolution begun
    less than 3600 time units after the first one stored its result
    returns the same sequence and leaves the state as it is: one request
    in all, whatever the network would answer the second time. *)
Theorem cache_idempotence_nonempty :
  forall w1 w2 self t0 t1 t2 t3 website st url r data st1,
    start self t0 website st = (Awaiting url, request url st) ->
    scrape_properties w1 self t0 t1 website st = (Ok (r :: data), st1) ->
    t1 <= t2 < t1 + 3600 ->
    scrape_properties w2 self t2 t3 website st1 = (Ok (r :: data), st1)
    /\ requests st1 = requests st ++ [url].
Proof.
  intros w1 w2 self t0 t1 t2 t3 website st url r data st1 Hstart Hfirst Ht.
  unfold scrape_properties in Hfirst. rewrite Hstart in Hfirst.
  apply resume_Ok_cons in Hfirst as ->. split; [|done].
  unfold scrape_properties. rewrite (start_served _ _ _ _ (r :: data)); [done|].
  unfold served. simpl. by rewrite get_insert_live.
Qed.

Lemma cache_idempotence_nonempty_witness :
  let w := Sample.world [(Sample.magicbricks_url, Sample.magicbricks_page)] in
  let st1 := snd (scrape_properties w Sample.pune 0 5 "magicbricks" initial) in
  scrape_properties (Sample.world []) Sample.pune 3604 3610 "magicbricks" st1
  = (Ok [Sample.omkar], st1)
  /\ requests st1 = requests initial ++ [Sample.magicbricks_url].
Proof.
  apply (cache_idempotence_nonempty
           (Sample.world [(Sample.magicbricks_url, Sample.magicbricks_page)])
           (Sample.world []) Sample.pune 0 5 3604 3610 "magicbricks" initial
           Sample.magicbricks_url).
  - reflexivity.
  - reflexivity.
  - lia.
Defined.

(** C4 fails when the page has no listing: the empty list is stored, the
    second resolution, two time units later, does not take it from the
    cache, and the page is requested twice. *)
Lemma empty_result_fetched_twice :
  let w := Sample.world [(Sample.magicbricks_url, Sample.no_listings)] in
  let first := scrape_properties w Sample.pune 0 1 "magicbricks" initial in
  let second := scrape_properties w Sample.pune 2 3 "magicbricks" (snd first) in
  fst first = Ok [] /\ fst second = Ok []
  /\ requests (snd second) = [Sample.magicbricks_url; Sample.magicbricks_url].
Proof. vm_compute. done. Qed.

(** ** Runs of [scrape_properties_parallel] *)

Lemma parallel_completed w self evs st property_data st1 :
  gather w self evs (websites_to_scrape self) st = (Completed property_data, st1) ->
  scrape_properties_parallel w self evs st
  = (Completed tt,
     logging INFO (DataSavedTo (file_path w self))
       (save_to_csv w (concat property_data) (file_path w self) st1)).
Proof. unfold scrape_properties_parallel. by intros ->. Qed.

Lemma fails_not_succeeds w self A B e data :
  fails w self A e -> succeeds w self B data -> A <> B.
Proof.
  intros (url & Hurl & Hfetch) (url' & soup & Hurl' & Hfetch' & _) ->. congruence.
Qed.

(** C5, as the code has it.  In a run of two websites [A] and [B], in
    either order, where the fetch of [A] fails with a transport error and
    the resolution of [B] succeeds with [dataB] (its page is fetched, its
    extraction block returns [dataB] and the cache takes it), whatever
    the order of the turns: [gather] completes, the combined list is
    [dataB], it is handed to [save_to_csv], the run ends normally, and
    the error of [A] is in the log. *)
Theorem failure_isolation :
  forall w self st evs A B e dataB,
    websites self = [A; B] \/ websites self = [B; A] ->
    fails w self A e -> succeeds w self B dataB ->
    cache st !! cache_key self A = None -> cache st !! cache_key self B = None ->
    fair 2 evs = true ->
    exists property_data st1,
      gather w self evs (websites self) st = (Completed property_data, st1)
      /\ concat property_data = dataB
      /\ scrape_properties_parallel w self evs st
         = (Completed tt,
            logging INFO (DataSavedTo (file_path w self))
              (save_to_csv w dataB (file_path w self) st1))
      /\ (ERROR, ErrorScraping (PyStr.capitalize A) e) ∈ log st1.
Proof.
  intros w self st evs A B e dataB Hws HA HB HcA HcB Hfair.
  pose proof (fails_not_succeeds _ _ _ _ _ _ HA HB) as Hne.
  set (expected := fun x : string => if String.eqb x B then dataB else []).
  assert (HeB : expected B = dataB) by (unfold expected; by rewrite String.eqb_refl).
  assert (HeA : expected A = []).
  { unfold expected. by destruct (String.eqb_spec A B). }
  assert (Hin : forall website, website ∈ websites self -> website = A \/ website = B).
  { intros website. rewrite list_elem_of_In.
    destruct Hws as [-> | ->]; simpl; intuition. }
  assert (Hres : forall website, website ∈ websites self ->
                                 resolves w self website (expected website)).
  { intros website [-> | ->]%Hin.
    - right. rewrite HeA. eauto.
    - left. by rewrite HeB. }
  assert (Hfresh : forall website, website ∈ websites self ->
                                   cache st !! cache_key self website = None).
  { by intros website [-> | ->]%Hin. }
  assert (Hlen : length (websites self) = 2%nat) by (by destruct Hws as [-> | ->]).
  destruct (gather_resolving w self (websites self) expected st Hres evs Hfresh)
    as (st1 & Hgather & _ & _ & Hlogged); [by rewrite Hlen|].
  assert (Hconcat : concat (map expected (websites self)) = dataB).
  { destruct Hws as [-> | ->]; cbn [map concat]; rewrite HeA, HeB; simpl;
      by rewrite ?app_nil_r. }
  exists (map expected (websites self)), st1. split_and!.
  - exact Hgather.
  - exact Hconcat.
  - rewrite <- Hconcat. apply parallel_completed.
    rewrite websites_to_scrape_registered; [done|].
    intros website Hw. destruct (Hres _ Hw) as [(url & ? & ? & _) | (_ & ? & url & ? & _)]; eauto.
  - apply (Hlogged A); [|done]. destruct Hws as [-> | ->]; set_solver.
Qed.

Lemma failure_isolation_witness :
  let w := Sample.world [(Sample.makaan_url, Sample.makaan_page)] in
  exists property_data st1,
    gather w Sample.pune Sample.schedule (websites Sample.pune) initial
    = (Completed property_data, st1)
    /\ concat property_data = [Sample.lodha]
    /\ scrape_properties_parallel w Sample.pune Sample.schedule initial
       = (Completed tt,
          logging INFO (DataSavedTo (file_path w Sample.pune))
            (save_to_csv w [Sample.lodha] (file_path w Sample.pune) st1))
    /\ (ERROR, ErrorScraping (PyStr.capitalize "magicbricks") TimeoutError) ∈ log st1.
Proof.
  apply (failure_isolation
           (Sample.world [(Sample.makaan_url, Sample.makaan_page)])
           Sample.pune initial Sample.schedule "magicbricks" "makaan"
           TimeoutError [Sample.lodha]).
  - left. reflexivity.
  - exists Sample.magicbricks_url. split; reflexivity.
  - exists Sample.makaan_url, Sample.makaan_page. repeat split; reflexivity.
  - reflexivity.
  - reflexivity.
  - reflexivity.
Defined.

(** C5 fails when the fetch of [B] succeeds and its resolution does
    not: magicbricks times out, commonfloor serves a page with one
    listing, whose record the cache cannot serialize.  The run ends with
    [TypeError]; there is no combined result and no file. *)
Lemma fetched_website_ends_the_run :
  let w := Sample.world [(Specimen.commonfloor_url, Specimen.commonfloor_page)] in
  let run := scrape_properties_parallel w Specimen.mixed Sample.schedule initial in
  base_url Specimen.mixed !! "magicbricks" = Some Sample.magicbricks_url
  /\ fetch_url w Sample.magicbricks_url = Raise TimeoutError
  /\ base_url Specimen.mixed !! "commonfloor" = Some Specimen.commonfloor_url
  /\ fetch_url w Specimen.commonfloor_url = Ok Specimen.commonfloor_page
  /\ fair 2 Sample.schedule = true
  /\ fst run = Raised TypeError
  /\ files (snd run) = ∅.
Proof. vm_compute. done. Qed.

(** C6.  In a run in which the resolution of every requested website
    succeeds, [gather] returns the record sequences in the order of the
    requested websites and the combined list is their concatenation in
    that order, for every order in which the event loop serves the tasks
    and at whatever times. *)
Theorem order_determinism :
  forall w self st evs data_of,
    (forall website, website ∈ websites_to_scrape self ->
                     succeeds w self website (data_of website)) ->
    (forall website, website ∈ websites_to_scrape self ->
                     cache st !! cache_key self website = None) ->
    fair (length (websites_to_scrape self)) evs = true ->
    exists st1,
      gather w self evs (websites_to_scrape self) st
      = (Completed (map data_of (websites_to_scrape self)), st1)
      /\ scrape_properties_parallel w self evs st
         = (Completed tt,
            logging INFO (DataSavedTo (file_path w self))
              (save_to_csv w (concat (map data_of (websites_to_scrape self)))
                 (file_path w self) st1)).
Proof.
  intros w self st evs data_of Hok Hfresh Hfair.
  destruct (gather_resolving w self (websites_to_scrape self) data_of st
              (fun website Hin => or_introl (Hok website Hin)) evs Hfresh Hfair)
    as (st1 & Hgather & _).
  exists st1. split; [done|]. by apply parallel_completed.
Qed.

Lemma order_determinism_witness :
  let w := Sample.world [(Sample.magicbricks_url, Sample.magicbricks_page);
                         (Sample.makaan_url, Sample.makaan_page)] in
  let data_of := fun website : string =>
                   if String.eqb website "makaan" then [Sample.lodha] else [Sample.omkar] in
  exists st1,
    gather w Sample.pune Sample.schedule (websites_to_scrape Sample.pune) initial
    = (Completed (map data_of (websites_to_scrape Sample.pune)), st1)
    /\ scrape_properties_parallel w Sample.pune Sample.schedule initial
       = (Completed tt,
          logging INFO (DataSavedTo (file_path w Sample.pune))
            (save_to_csv w (concat (map data_of (websites_to_scrape Sample.pune)))
               (file_path w Sample.pune) st1)).
Proof.
  apply (order_determinism
           (Sample.world [(Sample.magicbricks_url, Sample.magicbricks_page);
                          (Sample.makaan_url, Sample.makaan_page)])
           Sample.pune initial Sample.schedule
           (fun website : string =>
              if String.eqb website "makaan" then [Sample.lodha] else [Sample.omkar])).
  - intros website Hin. apply list_elem_of_In in Hin.
    destruct Hin as [<- | [<- | []]].
    + exists Sample.magicbricks_url, Sample.magicbricks_page. repeat split; reflexivity.
    + exists Sample.makaan_url, Sample.makaan_page. repeat split; reflexivity.
  - intros website _. reflexivity.
  - reflexivity.
Defined.

(** ** Text normalization *)

(** [lstrip("Owner: ")] goes on past the label for as long as the name
    starts with one of the characters of the label. *)
Lemma lstrip_label name :
  PyStr.lstrip "Owner: " ("Owner: " +:+ name) = PyStr.lstrip "Owner: " name.
Proof. reflexivity. Qed.

(** What the makaan block makes of a well-formed listing: the marker is
    removed from the owner, the value and the unit of the price are
    joined by a space behind the currency sign. *)
Lemma makaan_normalization :
  extract "makaan" Sample.makaan_page
  = Ok [record (PStr "Lodha") (PStr (rupee +:+ "85" +:+ " " +:+ "L")) (PStr "Lodha")]
  /\ text (Sample.seller "Lodha") = "LodhaBUILDER0".
Proof. vm_compute. done. Qed.

(** C7 at the failing input: on a magicbricks card whose owner block
    reads "Owner: Omkar", the record has the owner "mkar". *)
Theorem lstrip_eats_owner_name :
  text_of (find "div" (Some "mb-srp__card__ads--name")
             (Tag "div" ["mb-srp__card__ads"]
                [Tag "div" ["mb-srp__card__ads--name"] [NavigableString "Owner: Omkar"]]))
  = Ok "Owner: Omkar"
  /\ extract "magicbricks" Sample.magicbricks_page
     = Ok [record (PStr "mkar") (PStr "1.2 Cr") (PStr "2 BHK Flat")].
Proof. vm_compute. done. Qed.

(** ** The CSV file *)

Lemma add_keys_first r :
  has_keys r -> Pandas.add_keys [] r = ["owner"; "price"; "property_name"].
Proof. unfold has_keys, Pandas.add_keys. by intros ->. Qed.

Lemma add_keys_again r :
  has_keys r ->
  Pandas.add_keys ["owner"; "price"; "property_name"] r
  = ["owner"; "price"; "property_name"].
Proof. unfold has_keys, Pandas.add_keys. by intros ->. Qed.

Lemma columns_of_records data :
  Forall has_keys data ->
  fold_left Pandas.add_keys data ["owner"; "price"; "property_name"]
  = ["owner"; "price"; "property_name"].
Proof.
  induction 1 as [|r data Hr _ IH]; simpl; [done|]. by rewrite add_keys_again.
Qed.

Lemma DataFrame_of_records data :
  Forall has_keys data ->
  Pandas.rows (Pandas.DataFrame data) = map cells data
  /\ (data <> [] ->
      Pandas.columns (Pandas.DataFrame data) = ["owner"; "price"; "property_name"]).
Proof.
  intros Hdata. destruct Hdata as [|r data Hr Hdata]; [done|].
  unfold Pandas.DataFrame. simpl fold_left.
  rewrite add_keys_first, columns_of_records by done. done.
Qed.

Lemma save_to_csv_written w data path st :
  writable w path = true ->
  files (save_to_csv w data path st) !! path
  = Some {| encoding := "utf-8";
            contents := Pandas.to_csv (Pandas.DataFrame data) |}.
Proof. unfold save_to_csv. intros ->. simpl. apply lookup_insert_eq. Qed.

Lemma resolves_keys w self website data :
  resolves w self website data -> Forall has_keys data.
Proof.
  intros [(url & soup & _ & _ & Hdata & _) | [-> _]]; [|constructor].
  by eapply extract_keys.
Qed.

(** C8, as the code has it.  In a run in which every requested website
    resolves, by a fetch that fails with a transport error or by a
    resolution that succeeds (so also when all of them fail and the
    combined list is empty), [save_to_csv] is called with the combined
    list.  If the file can be opened it is written with the encoding
    utf-8 and has one line per record, with the cells of [owner], [price]
    and [property_name] in this order; when there is at least one record
    the header line names these three columns. *)
Theorem sink_written_after_resolving_run :
  forall w self st evs expected,
    (forall website, website ∈ websites_to_scrape self ->
                     resolves w self website (expected website)) ->
    (forall website, website ∈ websites_to_scrape self ->
                     cache st !! cache_key self website = None) ->
    fair (length (websites_to_scrape self)) evs = true ->
    let data := concat (map expected (websites_to_scrape self)) in
    exists st1,
      scrape_properties_parallel w self evs st
      = (Completed tt,
         logging INFO (DataSavedTo (file_path w self))
           (save_to_csv w data (file_path w self) st1))
      /\ (writable w (file_path w self) = true ->
          exists csv,
            files (snd (scrape_properties_parallel w self evs st)) !! file_path w self
            = Some {| encoding := "utf-8"; contents := csv |}
            /\ Pandas.lines csv = map cells data
            /\ (data <> [] ->
                Pandas.header csv = ["owner"; "price"; "property_name"])).
Proof.
  intros w self st evs expected Hres Hfresh Hfair data.
  destruct (gather_resolving w self (websites_to_scrape self) expected st
              Hres evs Hfresh Hfair) as (st1 & Hgather & _).
  pose proof (parallel_completed _ _ _ _ _ _ Hgather) as Hrun. fold data in Hrun.
  exists st1. split; [done|]. intros Hw.
  assert (Hkeys : Forall has_keys data).
  { apply Forall_concat, Forall_map, Forall_forall.
    intros website Hin. eapply resolves_keys, Hres, Hin. }
  destruct (DataFrame_of_records data Hkeys) as [Hrows Hcols].
  exists (Pandas.to_csv (Pandas.DataFrame data)).
  rewrite Hrun. split_and!; [by apply save_to_csv_written | done | done].
Qed.

Lemma sink_written_after_resolving_run_witness :
  let w := Sample.world [(Sample.makaan_url, Sample.makaan_page)] in
  exists st1,
    scrape_properties_parallel w Sample.pune Sample.schedule initial
    = (Completed tt,
       logging INFO (DataSavedTo (file_path w Sample.pune))
         (save_to_csv w [Sample.lodha] (file_path w Sample.pune) st1))
    /\ (writable w (file_path w Sample.pune) = true ->
        exists csv,
          files (snd (scrape_properties_parallel w Sample.pune Sample.schedule initial))
            !! file_path w Sample.pune
          = Some {| encoding := "utf-8"; contents := csv |}
          /\ Pandas.lines csv = map cells [Sample.lodha]
          /\ ([Sample.lodha] <> [] ->
              Pandas.header csv = ["owner"; "price"; "property_name"])).
Proof.
  apply (sink_written_after_resolving_run
           (Sample.world [(Sample.makaan_url, Sample.makaan_page)])
           Sample.pune initial Sample.schedule
           (fun website : string =>
              if String.eqb website "makaan" then [Sample.lodha] else [])).
  - intros website Hin. apply list_elem_of_In in Hin.
    destruct Hin as [<- | [<- | []]].
    + right. split; [reflexivity|].
      exists TimeoutError, Sample.magicbricks_url. split; reflexivity.
    + left. exists Sample.makaan_url, Sample.makaan_page. repeat split; reflexivity.
  - intros website _. reflexivity.
  - reflexivity.
Defined.

(** C8 fails on the run in which every fetch times out: the file is
    written, and its header line names no column. *)
Lemma empty_run_writes_no_header :
  let run := scrape_properties_parallel (Sample.world []) Sample.pune
               Sample.schedule initial in
  fst run = Completed tt
  /\ files (snd run) !! Sample.csv_path
     = Some {| encoding := "utf-8";
               contents := {| Pandas.header := []; Pandas.lines := [] |} |}.
Proof. vm_compute. done. Qed.

(** ** Expiry, and the empty result *)

Lemma served_expired self now website st entry :
  cache st !! cache_key self website = Some entry ->
  AioCache.stored_at entry + AioCache.ttl entry <= now ->
  served self now website st = None.
Proof.
  unfold served, AioCache.get, AioCache.live. intros -> Ht.
  by destruct (Z.ltb_spec now (AioCache.stored_at entry + AioCache.ttl entry)); [lia|].
Qed.

Lemma served_empty self now website st entry :
  cache st !! cache_key self website = Some entry ->
  AioCache.value entry = [] ->
  served self now website st = None.
Proof.
  unfold served, AioCache.get. intros -> Hvalue.
  destruct (AioCache.live now entry); [|done]. by rewrite Hvalue.
Qed.

Lemma served_live self now website st entry :
  cache st !! cache_key self website = Some entry ->
  now < AioCache.stored_at entry + AioCache.ttl entry ->
  AioCache.value entry <> [] ->
  served self now website st = Some (AioCache.value entry).
Proof.
  unfold served, AioCache.get, AioCache.live. intros -> Ht Hvalue.
  destruct (Z.ltb_spec now (AioCache.stored_at entry + AioCache.ttl entry)); [|lia].
  by destruct (AioCache.value entry).
Qed.

(** C9, as the code has it.  With an entry in the cache for a registered
    website: a resolution begun once the entry is as old as its ttl
    requests the page again, and, if the fetch, the extraction and the
    serialization succeed, returns the new records and puts them in
    place of the entry with the time of the store and a ttl of 3600;
    a resolution begun before that returns the entry without a request
    if the entry is not the empty list. *)
Theorem cache_expiry :
  forall w self t0 t1 website st entry url,
    cache st !! cache_key self website = Some entry ->
    base_url self !! website = Some url ->
    (AioCache.stored_at entry + AioCache.ttl entry <= t0 ->
       requests (snd (scrape_properties w self t0 t1 website st)) = requests st ++ [url]
       /\ forall soup data,
            fetch_url w url = Ok soup -> extract website soup = Ok data ->
            AioCache.json_serializable data = true ->
            exists st1,
              scrape_properties w self t0 t1 website st = (Ok data, st1)
              /\ cache st1 !! cache_key self website
                 = Some {| AioCache.value := data; AioCache.stored_at := t1;
                           AioCache.ttl := 3600 |})
    /\ (t0 < AioCache.stored_at entry + AioCache.ttl entry ->
        AioCache.value entry <> [] ->
        scrape_properties w self t0 t1 website st = (Ok (AioCache.value entry), st)).
Proof.
  intros w self t0 t1 website st entry url Hentry Hurl. split.
  - intros Hold.
    pose proof (start_not_served _ _ _ _ _ (served_expired _ _ _ _ _ Hentry Hold) Hurl)
      as Hstart.
    unfold scrape_properties. rewrite Hstart. split.
    + by rewrite resume_requests.
    + intros soup data -> Hdata Hjson. rewrite (resume_stored _ _ _ _ _ _ Hdata Hjson).
      eexists. split; [done|]. simpl. apply lookup_insert_eq.
  - intros Hlive Hvalue. unfold scrape_properties.
    by rewrite (start_served _ _ _ _ _ (served_live _ _ _ _ _ Hentry Hlive Hvalue)).
Qed.

Lemma cache_expiry_witness :
  let w := Sample.world [(Sample.magicbricks_url, Sample.magicbricks_page)] in
  let st1 := snd (scrape_properties w Sample.pune 0 5 "magicbricks" initial) in
  requests (snd (scrape_properties (Sample.world []) Sample.pune 3605 3606
                   "magicbricks" st1))
  = requests st1 ++ [Sample.magicbricks_url].
Proof.
  intros w st1.
  refine (proj1 (proj1 (cache_expiry (Sample.world []) Sample.pune 3605 3606
                          "magicbricks" st1
                          {| AioCache.value := [Sample.omkar]; AioCache.stored_at := 5;
                             AioCache.ttl := 3600 |}
                          Sample.magicbricks_url _ _) _)).
  - reflexivity.
  - reflexivity.
  - simpl. lia.
Defined.

(** C9 fails on an entry that is the empty list: a resolution ten time
    units after the store, well within the ttl, requests the page. *)
Lemma live_empty_entry_refetched :
  AioCache.get 10 (cache_key Sample.pune "makaan") (cache Sample.cached_empty) = Some []
  /\ requests (snd (scrape_properties
                      (Sample.world [(Sample.makaan_url, Sample.makaan_page)])
                      Sample.pune 10 11 "makaan" Sample.cached_empty))
     = [Sample.makaan_url].
Proof. vm_compute. done. Qed.

(** C10.  When a resolution requests the page, the fetch succeeds and
    the extraction yields no record, the empty list is returned and
    stored under the key for 3600 time units; and from that state every
    resolution of the same website, at whatever time, requests the page
    again. *)
Theorem empty_result_never_served :
  forall w self t0 t1 website st url soup,
    start self t0 website st = (Awaiting url, request url st) ->
    fetch_url w url = Ok soup ->
    extract website soup = Ok [] ->
    exists st1,
      scrape_properties w self t0 t1 website st = (Ok [], st1)
      /\ cache st1 !! cache_key self website
         = Some {| AioCache.value := []; AioCache.stored_at := t1;
                   AioCache.ttl := 3600 |}
      /\ forall w' t2 t3,
           start self t2 website st1 = (Awaiting url, request url st1)
           /\ requests (snd (scrape_properties w' self t2 t3 website st1))
              = requests st1 ++ [url].
Proof.
  intros w self t0 t1 website st url soup Hstart Hfetch Hdata.
  apply start_Awaiting in Hstart as Hs. destruct Hs as (_ & Hurl & _).
  eexists. split_and!.
  - unfold scrape_properties. rewrite Hstart, Hfetch.
    by apply resume_stored.
  - simpl. apply lookup_insert_eq.
  - intros w' t2 t3.
    match goal with |- start _ _ _ ?s = _ /\ _ =>
      assert (Hs : served self t2 website s = None)
        by (eapply served_empty; [apply lookup_insert_eq | done]);
      pose proof (start_not_served _ _ _ _ _ Hs Hurl) as Hstart2
    end.
    split; [done|]. unfold scrape_properties. rewrite Hstart2.
    by rewrite resume_requests.
Qed.

Lemma empty_result_never_served_witness :
  let w := Sample.world [(Sample.magicbricks_url, Sample.no_listings)] in
  exists st1,
    scrape_properties w Sample.pune 0 1 "magicbricks" initial = (Ok [], st1)
    /\ cache st1 !! cache_key Sample.pune "magicbricks"
       = Some {| AioCache.value := []; AioCache.stored_at := 1; AioCache.ttl := 3600 |}
    /\ forall w' t2 t3,
         start Sample.pune t2 "magicbricks" st1
         = (Awaiting Sample.magicbricks_url, request Sample.magicbricks_url st1)
         /\ requests (snd (scrape_properties w' Sample.pune t2 t3 "magicbricks" st1))
            = requests st1 ++ [Sample.magicbricks_url].
Proof.
  apply (empty_result_never_served
           (Sample.world [(Sample.magicbricks_url, Sample.no_listings)])
           Sample.pune 0 1 "magicbricks" initial Sample.magicbricks_url
           Sample.no_listings); reflexivity.
Defined.


(** * Further properties *)

(** ** Lists built by comprehensions and [zip] *)

Lemma comprehension_all {A B} (f : A -> Result B) l l' :
  comprehension f l = Ok l' -> forall x, x ∈ l -> exists y, f x = Ok y.
Proof.
  revert l'. induction l as [|a l IH]; intros l' H x Hx; [by apply elem_of_nil in Hx|].
  simpl in H. apply bind_Ok in H as (y & Hy & H). apply bind_Ok in H as (ys & Hys & _).
  apply elem_of_cons in Hx as [-> | Hx]; eauto.
Qed.

Lemma comprehension_lookup {A B} (f : A -> Result B) l l' i y :
  comprehension f l = Ok l' -> l' !! i = Some y ->
  exists x, l !! i = Some x /\ f x = Ok y.
Proof.
  revert l' i. induction l as [|a l IH]; intros l' i H Hi; simpl in H.
  - injection H as <-. by destruct i.
  - apply bind_Ok in H as (b & Hb & H). apply bind_Ok in H as (bs & Hbs & [= <-]).
    destruct i as [|i]; simpl in *.
    + injection Hi as <-. eauto.
    + eauto.
Qed.

Lemma map_lookup {A B} (f : A -> B) (l : list A) i y :
  map f l !! i = Some y -> exists x, l !! i = Some x /\ y = f x.
Proof.
  revert i. induction l as [|a l IH]; intros [|i] H; simpl in *; try done.
  - injection H as <-. eauto.
  - eauto.
Qed.

Lemma zip3_length {A B C} (la : list A) (lb : list B) (lc : list C) :
  length (zip3 la lb lc)
  = Nat.min (length la) (Nat.min (length lb) (length lc)).
Proof.
  revert lb lc. induction la as [|a la IH]; intros [|b lb] [|c lc]; simpl; try done.
  by rewrite IH.
Qed.

Lemma zip2_length {A B} (la : list A) (lb : list B) :
  length (zip2 la lb) = Nat.min (length la) (length lb).
Proof.
  revert lb. induction la as [|a la IH]; intros [|b lb]; simpl; try done.
  by rewrite IH.
Qed.

Lemma zip3_lookup {A B C} (la : list A) (lb : list B) (lc : list C) i a b c :
  zip3 la lb lc !! i = Some (a, b, c) ->
  la !! i = Some a /\ lb !! i = Some b /\ lc !! i = Some c.
Proof.
  revert lb lc i. induction la as [|a' la IH]; intros [|b' lb] [|c' lc] [|i] H;
    simpl in *; try done.
  - by injection H as -> -> ->.
  - eauto.
Qed.

Lemma zip2_lookup {A B} (la : list A) (lb : list B) i a b :
  zip2 la lb !! i = Some (a, b) -> la !! i = Some a /\ lb !! i = Some b.
Proof.
  revert lb i. induction la as [|a' la IH]; intros [|b' lb] [|i] H;
    simpl in *; try done.
  - by injection H as -> ->.
  - eauto.
Qed.

Lemma text_of_Ok x t : text_of x = Ok t -> exists n, x = Some n /\ t = text n.
Proof. destruct x as [n|]; simpl; [|done]. intros [= <-]. eauto. Qed.

Lemma concat_length_sum {A X} (count : X -> nat) (l : list X) (per : list (list A)) :
  Forall2 (fun x rs => length rs = count x) l per ->
  length (concat per) = sum_list (map count l).
Proof.
  induction 1 as [|x rs l per Hx _ IH]; simpl; [done|].
  by rewrite length_app, Hx, IH.
Qed.

(** ** The extraction blocks, container by container *)

Lemma for_each_extend_all {A R} (f : A -> Result (list R)) (l : list A) acc out :
  for_each (fun acc x => let* rs := f x in Ok (acc ++ rs)) acc l = Ok out ->
  forall x, x ∈ l -> exists rs, f x = Ok rs.
Proof.
  intros H x Hx. apply for_each_extend in H as (per & Hper & _).
  apply list_elem_of_lookup_1 in Hx as [i Hi].
  destruct (Forall2_lookup_l _ _ _ _ _ Hper Hi) as (rs & _ & Hrs). eauto.
Qed.

Lemma for_each_extend_elem {A R} (f : A -> Result (list R)) (l : list A) out r :
  for_each (fun acc x => let* rs := f x in Ok (acc ++ rs)) [] l = Ok out ->
  r ∈ out -> exists x rs, x ∈ l /\ f x = Ok rs /\ r ∈ rs.
Proof.
  intros H Hr. apply for_each_extend in H as (per & Hper & ->). simpl in Hr.
  induction Hper as [|x rs l per Hx _ IH]; simpl in Hr; [by apply elem_of_nil in Hr|].
  apply elem_of_app in Hr as [Hr | Hr].
  - exists x, rs. split; [left | done].
  - destruct (IH Hr) as (x' & rs' & Hin & Hx' & Hr'). exists x', rs'. split; [by right | done].
Qed.

Lemma for_each_extend_Raise {A R} (f : A -> Result (list R)) (l : list A) acc e :
  for_each (fun acc x => let* rs := f x in Ok (acc ++ rs)) acc l = Raise e ->
  exists x, x ∈ l /\ f x = Raise e.
Proof.
  intros H. apply for_each_Raise in H as (acc' & x & Hx & H).
  apply bind_Raise in H as [H | (? & _ & H)]; [eauto | discriminate].
Qed.

Lemma magicbricks_listing_length listing rs :
  magicbricks_listing listing = Ok rs -> length rs = triples "magicbricks" listing.
Proof.
  unfold magicbricks_listing, triples, owner_nodes, price_nodes, title_nodes. simpl.
  intros H. apply bind_Ok in H as (owners & Howners & [= <-]).
  by rewrite length_map, zip3_length, !length_map, (comprehension_length _ _ _ Howners).
Qed.

Lemma makaan_listing_length listing rs :
  makaan_listing listing = Ok rs -> length rs = triples "makaan" listing.
Proof.
  unfold makaan_listing, triples, owner_nodes, price_nodes, title_nodes. simpl.
  intros H. apply bind_Ok in H as (dens & Hdens & H).
  apply bind_Ok in H as (prices & Hprices & H).
  apply bind_Ok in H as (names & Hnames & [= <-]).
  rewrite length_map, zip3_length, !length_map, zip2_length.
  rewrite (comprehension_length _ _ _ Hdens), (comprehension_length _ _ _ Hprices).
  rewrite (comprehension_length _ _ _ Hnames), length_map. lia.
Qed.

(** X1.  When the magicbricks or the makaan block returns, the number of
    records is the sum, over the listing containers of the page, of the
    shortest of the container's three node lists: [zip] makes as many
    triples as the shortest list has nodes and drops the rest. *)
Theorem record_count :
  forall website soup data,
    website = "magicbricks" \/ website = "makaan" ->
    extract website soup = Ok data ->
    length data = sum_list (map (triples website) (containers website soup)).
Proof.
  intros website soup data Hsite Hextract. unfold extract in Hextract.
  destruct Hsite as [-> | ->]; simpl in Hextract;
    apply for_each_extend in Hextract as (per & Hper & ->); simpl;
    apply concat_length_sum; (eapply Forall2_impl; [exact Hper|]);
    intros listing rs Hrs.
  - by apply magicbricks_listing_length.
  - by apply makaan_listing_length.
Qed.

Lemma record_count_witness :
  length [Sample.lodha]
  = sum_list (map (triples "makaan") (containers "makaan" Sample.makaan_page)).
Proof.
  apply (record_count "makaan" Sample.makaan_page [Sample.lodha]).
  - right. reflexivity.
  - reflexivity.
Defined.

Lemma magicbricks_listing_nameless listing e :
  magicbricks_listing listing = Raise e -> nameless_ads listing.
Proof.
  unfold magicbricks_listing. intros H.
  apply bind_Raise in H as [H | (? & _ & H)]; [|discriminate].
  apply comprehension_Raise in H as (ads & Hads & H).
  apply bind_Raise in H as [H | (? & _ & H)]; [|discriminate].
  exists ads. split; [done|]. by destruct (find _ _ ads).
Qed.

Lemma magicbricks_listing_named listing rs :
  magicbricks_listing listing = Ok rs -> ~ nameless_ads listing.
Proof.
  unfold magicbricks_listing. intros H (ads & Hads & Hnone).
  apply bind_Ok in H as (owners & Howners & _).
  destruct (comprehension_all _ _ _ Howners ads Hads) as [o Ho].
  by rewrite Hnone in Ho.
Qed.

(** X2.  The magicbricks block raises exactly when some listing
    container holds an owner block ([mb-srp__card__ads]) without a name
    block ([mb-srp__card__ads--name]) in it; it then raises
    [AttributeError], whatever else the page holds. *)
Theorem magicbricks_raises_iff :
  forall soup,
    extract "magicbricks" soup = Raise AttributeError
    <-> exists listing, listing ∈ blocks "magicbricks" soup /\ nameless_ads listing.
Proof.
  intros soup. change (blocks "magicbricks" soup)
    with (find_all "div" (Some "mb-srp__left") soup).
  change (extract "magicbricks" soup)
    with (for_each (fun acc listing =>
                      let* rs := magicbricks_listing listing in Ok (acc ++ rs))
            [] (find_all "div" (Some "mb-srp__left") soup)).
  split.
  - intros H. apply for_each_extend_Raise in H as (listing & Hin & H).
    exists listing. split; [done|]. by eapply magicbricks_listing_nameless.
  - intros (listing & Hin & Hbad).
    destruct (for_each _ _ _) as [data|e] eqn:H.
    + destruct (for_each_extend_all _ _ _ _ H listing Hin) as [rs Hrs].
      by destruct (magicbricks_listing_named _ _ Hrs).
    + apply for_each_extend_Raise in H as (listing' & _ & H).
      by rewrite (magicbricks_listing_Raise _ _ H).
Qed.

Lemma makaan_listing_broken listing e :
  makaan_listing listing = Raise e -> broken_makaan listing.
Proof.
  unfold makaan_listing, broken_makaan. intros H.
  apply bind_Raise in H as [H | (dens & _ & H)].
  { apply comprehension_Raise in H as (td & Htd & H). left. exists td.
    split; [done|]. right. by destruct (find _ _ td). }
  apply bind_Raise in H as [H | (prices & _ & H)].
  { apply comprehension_Raise in H as (x & Hx & H). left.
    apply list_elem_of_lookup_1 in Hx as [i Hi].
    apply map_lookup in Hi as (td & Htd & ->). exists td.
    split; [by eapply list_elem_of_lookup_2|]. left. by destruct (find _ _ td). }
  apply bind_Raise in H as [H | (names & _ & H)]; [|discriminate].
  apply comprehension_Raise in H as (s & Hs & H). right. exists s.
  split; [done|]. by destruct (find _ _ s).
Qed.

Lemma makaan_listing_sound listing rs :
  makaan_listing listing = Ok rs -> ~ broken_makaan listing.
Proof.
  unfold makaan_listing. intros H.
  apply bind_Ok in H as (dens & Hdens & H).
  apply bind_Ok in H as (prices & Hprices & H).
  apply bind_Ok in H as (names & Hnames & _).
  intros [(td & Htd & [Hnone | Hnone]) | (s & Hs & Hnone)].
  - assert (Hin : find "span" (Some "val") td
                  ∈ map (find "span" (Some "val")) (find_all "td" (Some "price") listing)).
    { apply list_elem_of_In, in_map, list_elem_of_In, Htd. }
    destruct (comprehension_all _ _ _ Hprices _ Hin) as [p Hp]. by rewrite Hnone in Hp.
  - destruct (comprehension_all _ _ _ Hdens td Htd) as [d Hd]. by rewrite Hnone in Hd.
  - destruct (comprehension_all _ _ _ Hnames s Hs) as [n Hn]. by rewrite Hnone in Hn.
Qed.

(** X3.  The makaan block raises exactly when some listing container
    holds a price cell without its [val] span or without its [unit] span,
    or a [seller-info] block without its [seller-name] link; it then
    raises [AttributeError]. *)
Theorem makaan_raises_iff :
  forall soup,
    extract "makaan" soup = Raise AttributeError
    <-> exists listing, listing ∈ blocks "makaan" soup /\ broken_makaan listing.
Proof.
  intros soup. change (blocks "makaan" soup)
    with (find_all "div" (Some "search-result-wrap") soup).
  change (extract "makaan" soup)
    with (for_each (fun acc listing =>
                      let* rs := makaan_listing listing in Ok (acc ++ rs))
            [] (find_all "div" (Some "search-result-wrap") soup)).
  split.
  - intros H. apply for_each_extend_Raise in H as (listing & Hin & H).
    exists listing. split; [done|]. by eapply makaan_listing_broken.
  - intros (listing & Hin & Hbad).
    destruct (for_each _ _ _) as [data|e] eqn:H.
    + destruct (for_each_extend_all _ _ _ _ H listing Hin) as [rs Hrs].
      by destruct (makaan_listing_sound _ _ Hrs).
    + apply for_each_extend_Raise in H as (listing' & _ & H).
      by rewrite (makaan_listing_Raise _ _ H).
Qed.

(** ** Which nodes a record is made of *)

(** X4.  The [i]-th record of a magicbricks listing container is made
    of the [i]-th owner block, the [i]-th price block and the [i]-th
    title of the container, wherever they sit in it: the owner is the
    text of the name block after [lstrip("Owner: ")], price and title are
    texts as they are ([text] being what bs4's [.text] gives, comments
    and scripts left out). *)
Theorem magicbricks_pairing :
  forall listing rs i r,
    magicbricks_listing listing = Ok rs -> rs !! i = Some r ->
    exists ads name price title,
      find_all "div" (Some "mb-srp__card__ads") listing !! i = Some ads
      /\ find "div" (Some "mb-srp__card__ads--name") ads = Some name
      /\ find_all "div" (Some "mb-srp__card__price--amount") listing !! i = Some price
      /\ find_all "h2" (Some "mb-srp__card--title") listing !! i = Some title
      /\ r = record (PStr (PyStr.lstrip "Owner: " (text name)))
               (PStr (text price)) (PStr (text title)).
Proof.
  unfold magicbricks_listing. intros listing rs i r H Hi.
  apply bind_Ok in H as (owners & Howners & [= <-]).
  apply map_lookup in Hi as ([[o p] t] & Hzip & ->).
  apply zip3_lookup in Hzip as (Ho & Hp & Ht).
  apply (comprehension_lookup _ _ _ _ _ Howners) in Ho as (ads & Hads & Ho).
  apply bind_Ok in Ho as (txt & Htxt & [= <-]).
  apply text_of_Ok in Htxt as (name & Hname & ->).
  apply map_lookup in Hp as (price & Hprice & ->).
  apply map_lookup in Ht as (title & Htitle & ->).
  by exists ads, name, price, title.
Qed.

Lemma magicbricks_pairing_witness :
  exists ads name price title,
    find_all "div" (Some "mb-srp__card__ads")
      (Tag "div" ["mb-srp__left"] (Sample.card "Owner: Omkar" "1.2 Cr" "2 BHK Flat"))
      !! 0%nat = Some ads
    /\ find "div" (Some "mb-srp__card__ads--name") ads = Some name
    /\ find_all "div" (Some "mb-srp__card__price--amount")
         (Tag "div" ["mb-srp__left"] (Sample.card "Owner: Omkar" "1.2 Cr" "2 BHK Flat"))
         !! 0%nat = Some price
    /\ find_all "h2" (Some "mb-srp__card--title")
         (Tag "div" ["mb-srp__left"] (Sample.card "Owner: Omkar" "1.2 Cr" "2 BHK Flat"))
         !! 0%nat = Some title
    /\ Sample.omkar
       = record (PStr (PyStr.lstrip "Owner: " (text name)))
           (PStr (text price)) (PStr (text title)).
Proof.
  apply (magicbricks_pairing
           (Tag "div" ["mb-srp__left"] (Sample.card "Owner: Omkar" "1.2 Cr" "2 BHK Flat"))
           [Sample.omkar] 0%nat Sample.omkar); reflexivity.
Defined.

(** X5.  The [i]-th record of a makaan listing container is made of the
    [i]-th [seller-info] block and the [i]-th price cell: the owner is
    the whole text of the seller block with every "BUILDER0" taken out,
    the title is the text of its [seller-name] link, and the price is
    the currency sign, the text of the [val] span, a space and the text
    of the [unit] span. *)
Theorem makaan_pairing :
  forall listing rs i r,
    makaan_listing listing = Ok rs -> rs !! i = Some r ->
    exists seller cell val unit name,
      find_all "div" (Some "seller-info") listing !! i = Some seller
      /\ find_all "td" (Some "price") listing !! i = Some cell
      /\ find "span" (Some "val") cell = Some val
      /\ find "span" (Some "unit") cell = Some unit
      /\ find "a" (Some "seller-name") seller = Some name
      /\ r = record (PStr (PyStr.replace "BUILDER0" "" (text seller)))
               (PStr (rupee +:+ text val +:+ " " +:+ text unit))
               (PStr (text name)).
Proof.
  unfold makaan_listing. intros listing rs i r H Hi.
  apply bind_Ok in H as (dens & Hdens & H).
  apply bind_Ok in H as (prices & Hprices & H).
  apply bind_Ok in H as (names & Hnames & [= <-]).
  apply map_lookup in Hi as ([[o p] n] & Hzip & ->).
  apply zip3_lookup in Hzip as (Ho & Hp & Hn).
  apply map_lookup in Ho as (seller & Hseller & ->).
  apply map_lookup in Hp as ([p0 d] & Hpd & ->).
  apply zip2_lookup in Hpd as (Hp0 & Hd).
  apply (comprehension_lookup _ _ _ _ _ Hprices) in Hp0 as (x & Hx & Hp0).
  apply map_lookup in Hx as (cell & Hcell & ->).
  apply text_of_Ok in Hp0 as (val & Hval & ->).
  apply (comprehension_lookup _ _ _ _ _ Hdens) in Hd as (cell' & Hcell' & Hd).
  assert (cell' = cell) as -> by congruence.
  apply text_of_Ok in Hd as (unit & Hunit & ->).
  apply (comprehension_lookup _ _ _ _ _ Hnames) in Hn as (seller' & Hseller' & Hn).
  assert (seller' = seller) as -> by congruence.
  apply text_of_Ok in Hn as (name & Hname & ->).
  by exists seller, cell, val, unit, name.
Qed.

Lemma makaan_pairing_witness :
  exists seller cell val unit name,
    find_all "div" (Some "seller-info")
      (Sample.result_wrap Specimen.seller_scripted (Sample.price_cell "85" "L"))
      !! 0%nat = Some seller
    /\ find_all "td" (Some "price")
         (Sample.result_wrap Specimen.seller_scripted (Sample.price_cell "85" "L"))
         !! 0%nat = Some cell
    /\ find "span" (Some "val") cell = Some val
    /\ find "span" (Some "unit") cell = Some unit
    /\ find "a" (Some "seller-name") seller = Some name
    /\ Sample.lodha
       = record (PStr (PyStr.replace "BUILDER0" "" (text seller)))
           (PStr (rupee +:+ text val +:+ " " +:+ text unit))
           (PStr (text name)).
Proof.
  apply (makaan_pairing
           (Sample.result_wrap Specimen.seller_scripted (Sample.price_cell "85" "L"))
           [Sample.lodha] 0%nat Sample.lodha); reflexivity.
Defined.

(** On the seller block that holds a comment and a script, [text] gives
    the name alone, and so does the record of its page; the text of the
    [script] tag itself is its script. *)
Lemma text_leaves_out_comments_and_scripts :
  text Specimen.seller_scripted = "Lodha"
  /\ text (Tag "script" [] [OtherString Script "var a=1;"]) = "var a=1;"
  /\ text (Tag "div" [] [NavigableString "a"; OtherString CData "b";
                         OtherString Comment "c"; Tag "style" [] [OtherString Stylesheet "d"]])
     = "ab"
  /\ extract "makaan" Specimen.makaan_page_scripted = Ok [Sample.lodha].
Proof. vm_compute. done. Qed.

Lemma lstrip_first chars s c s' :
  PyStr.lstrip chars s = String c s' -> PyStr.mem_char c chars = false.
Proof.
  induction s as [|d s IH]; simpl; [done|].
  destruct (PyStr.mem_char d chars) eqn:Hd; [done|]. by intros [= <- _].
Qed.

Lemma magicbricks_listing_owner listing rs r :
  magicbricks_listing listing = Ok rs -> r ∈ rs ->
  exists t, Pandas.getitem "owner" r = Some (PStr (PyStr.lstrip "Owner: " t)).
Proof.
  unfold magicbricks_listing. intros H Hr.
  apply bind_Ok in H as (owners & Howners & [= <-]).
  apply list_elem_of_lookup_1 in Hr as [i Hi].
  apply map_lookup in Hi as ([[o p] t] & Hzip & ->).
  apply zip3_lookup in Hzip as (Ho & _).
  apply (comprehension_lookup _ _ _ _ _ Howners) in Ho as (ads & _ & Ho).
  apply bind_Ok in Ho as (txt & _ & [= <-]). by exists txt.
Qed.

(** X6.  No owner in the output of the magicbricks block begins with
    one of the characters of "Owner: " (O, w, n, e, r, the colon, the
    space): [lstrip] takes a set of characters, and goes on into the
    name. *)
Theorem magicbricks_owner_first_character :
  forall soup data r,
    extract "magicbricks" soup = Ok data -> r ∈ data ->
    exists owner,
      Pandas.getitem "owner" r = Some (PStr owner)
      /\ forall c rest, owner = String c rest -> PyStr.mem_char c "Owner: " = false.
Proof.
  intros soup data r Hextract Hr.
  change (extract "magicbricks" soup)
    with (for_each (fun acc listing =>
                      let* rs := magicbricks_listing listing in Ok (acc ++ rs))
            [] (find_all "div" (Some "mb-srp__left") soup)) in Hextract.
  apply (for_each_extend_elem _ _ _ _ Hextract) in Hr as (listing & rs & _ & Hrs & Hr).
  destruct (magicbricks_listing_owner _ _ _ Hrs Hr) as [t Ht].
  eexists. split; [exact Ht|]. intros c rest. apply lstrip_first.
Qed.

Lemma magicbricks_owner_first_character_witness :
  exists owner,
    Pandas.getitem "owner" Sample.omkar = Some (PStr owner)
    /\ forall c rest, owner = String c rest -> PyStr.mem_char c "Owner: " = false.
Proof.
  apply (magicbricks_owner_first_character Sample.magicbricks_page
           [Sample.omkar] Sample.omkar).
  - reflexivity.
  - left.
Defined.

(** ** commonfloor *)

Lemma for_each_append {A R} (f : A -> Result R) (l : list A) acc out :
  for_each (fun acc x => let* r := f x in Ok (acc ++ [r])) acc l = Ok out ->
  exists rs, Forall2 (fun x r => f x = Ok r) l rs /\ out = acc ++ rs.
Proof.
  revert acc. induction l as [|x l IH]; simpl; intros acc H.
  - injection H as <-. exists []. split; [constructor | by rewrite app_nil_r].
  - apply bind_Ok in H as (acc' & Hx & H).
    apply bind_Ok in Hx as (r & Hr & [= <-]).
    destruct (IH _ H) as (rs & Hrs & ->).
    exists (r :: rs). split; [by constructor | by rewrite <- app_assoc].
Qed.

Lemma commonfloor_listing_price listing r :
  commonfloor_listing listing = Ok r ->
  exists owner cell cells property_name,
    r = record (PStr owner) (PTags (cell :: cells)) (PStr property_name).
Proof.
  unfold commonfloor_listing. intros H.
  apply bind_Ok in H as (owner & _ & H).
  apply bind_Ok in H as (price & _ & H).
  apply bind_Ok in H as (icon & Hicon & H).
  apply bind_Ok in H as (? & _ & H). apply bind_Ok in H as (? & _ & H).
  apply bind_Ok in H as (name & _ & [= <-]).
  destruct price as [|cell cells]; [discriminate|]. eauto.
Qed.

Lemma commonfloor_not_serializable soup data :
  extract "commonfloor" soup = Ok data ->
  find_all "div" (Some "snb-content-list") soup <> [] ->
  AioCache.json_serializable data = false.
Proof.
  change (extract "commonfloor" soup)
    with (for_each (fun acc listing =>
                      let* r := commonfloor_listing listing in Ok (acc ++ [r]))
            [] (find_all "div" (Some "snb-content-list") soup)).
  intros H Hne. apply for_each_append in H as (rs & Hrs & ->).
  destruct Hrs as [|listing r l rs Hr _]; [done|].
  apply commonfloor_listing_price in Hr as (o & cell & cells & n & ->). done.
Qed.

(** X7.  A resolution of commonfloor that fetches a page with at least
    one [snb-content-list] listing never returns: the block raises on
    the markup, or it builds records whose price is the list of the
    [td] tags, which the JSON serializer of the cache refuses with a
    [TypeError], an exception [scrape_properties] does not catch.
    Nothing is cached and nothing is logged. *)
Theorem commonfloor_never_returns_records :
  forall w self t0 t1 st url soup,
    start self t0 "commonfloor" st = (Awaiting url, request url st) ->
    fetch_url w url = Ok soup ->
    find_all "div" (Some "snb-content-list") soup <> [] ->
    exists e,
      scrape_properties w self t0 t1 "commonfloor" st = (Raise e, request url st)
      /\ (e = AttributeError \/ e = IndexError \/ e = TypeError).
Proof.
  intros w self t0 t1 st url soup Hstart Hfetch Hne.
  unfold scrape_properties. rewrite Hstart, Hfetch.
  destruct (extract "commonfloor" soup) as [data|e] eqn:Hextract.
  - exists TypeError. split; [|auto].
    unfold resume. simpl. rewrite Hextract. simpl. unfold AioCache.set.
    by rewrite (commonfloor_not_serializable _ _ Hextract Hne).
  - exists e. split; [by apply resume_extract_failed|].
    destruct (extract_Raise _ _ _ Hextract) as [-> | ->]; auto.
Qed.

(** ** What a run of [gather] does and does not do *)

Lemma turn_cases w self ev tasks st tasks' st' :
  turn w self ev tasks st = (tasks', st') ->
  (tasks' = tasks /\ st' = st)
  \/ (exists i now website t,
        ev = (i, now) /\ tasks !! i = Some (Created website)
        /\ tasks' = <[i := t]> tasks
        /\ ((exists r, start self now website st = (Finished r, st') /\ t = Done r)
            \/ (exists url, start self now website st = (Awaiting url, st')
                            /\ t = Fetching website url)))
  \/ (exists i now website url r,
        ev = (i, now) /\ tasks !! i = Some (Fetching website url)
        /\ resume self now website (fetch_url w url) st = (r, st')
        /\ tasks' = <[i := Done r]> tasks).
Proof.
  destruct ev as [i now]. unfold turn.
  destruct (tasks !! i) as [[website|website url|r]|] eqn:Hi.
  - destruct (start self now website st) as [[r|url] st1] eqn:Hstart;
      intros [= <- <-]; right; left; exists i, now, website; eexists;
      (split_and!; [done|done|done|]); [left | right]; eauto.
  - destruct (resume _ _ _ _ _) as [r st1] eqn:Hresume. intros [= <- <-].
    right. right. exists i, now, website, url, r. done.
  - intros [= <- <-]. by left.
  - intros [= <- <-]. by left.
Qed.

Lemma run_preserves w self (I : list Task -> State -> Prop) :
  (forall ev tasks st tasks' st',
     I tasks st -> turn w self ev tasks st = (tasks', st') -> I tasks' st') ->
  forall evs tasks st tasks' st',
    I tasks st -> run w self evs tasks st = (tasks', st') -> I tasks' st'.
Proof.
  intros Hturn evs. induction evs as [|ev evs IH]; intros tasks st tasks' st' HI Hrun;
    simpl in Hrun.
  - assert ((tasks, st) = (tasks', st')) as [= <- <-] by (by destruct (raised tasks)).
    done.
  - destruct (raised tasks); [by injection Hrun as <- <-|].
    destruct (turn w self ev tasks st) as [tasks1 st1] eqn:Ht. eauto.
Qed.

Lemma start_effects self now website st t st' :
  start self now website st = (t, st') ->
  cache st' = cache st /\ log st' = log st /\ files st' = files st
  /\ match t with
     | Finished _ => requests st' = requests st
     | Awaiting url => requests st' = requests st ++ [url]
     end.
Proof.
  unfold start. destruct (AioCache.get _ _ _) as [[|r d]|];
    try (destruct (base_url self !! website)); by intros [= <- <-].
Qed.

Lemma resume_effects self now website fetched st r st' :
  resume self now website fetched st = (r, st') ->
  files st' = files st /\ requests st' = requests st
  /\ (log st' = log st
      \/ exists e, handled e = true
                   /\ log st' = log st ++ [(ERROR, ErrorScraping (PyStr.capitalize website) e)]).
Proof.
  unfold resume. destruct (let* soup := fetched in _) as [[data store]|e].
  - intros [= <- <-]. auto.
  - destruct (handled e) eqn:He; intros [= <- <-]; [|auto].
    split_and!; [done..|]. right. by exists e.
Qed.

Lemma created_insert (tasks : list Task) i t t' :
  tasks !! i = Some t ->
  (created (<[i := t']> tasks) + created [t] = created tasks + created [t'])%nat.
Proof.
  revert i. induction tasks as [|a tasks IH]; intros [|i] Hi; simpl in *; try done.
  - injection Hi as ->. destruct t, t'; simpl; lia.
  - specialize (IH _ Hi). destruct a; simpl; lia.
Qed.

Lemma created_all (ws : list string) : created (map Created ws) = length ws.
Proof. induction ws as [|x ws IH]; simpl; [done | by rewrite IH]. Qed.

Lemma count_if_insert {A} (p : A -> bool) (l : list A) i x y :
  l !! i = Some x ->
  (count_if p (<[i := y]> l) + (if p x then 1 else 0)
   = count_if p l + (if p y then 1 else 0))%nat.
Proof.
  revert i. induction l as [|a l IH]; intros [|i] Hi; simpl in *; try done.
  - injection Hi as ->. lia.
  - specialize (IH _ Hi). lia.
Qed.

Lemma count_if_app {A} (p : A -> bool) (l l' : list A) :
  count_if p (l ++ l') = (count_if p l + count_if p l')%nat.
Proof. induction l as [|a l IH]; simpl; [done | rewrite IH; lia]. Qed.

Lemma unstarted_all self url (ws : list string) :
  count_if (unstarted self url) (map Created ws) = count_if (asks self url) ws.
Proof. induction ws as [|x ws IH]; simpl; [done | by rewrite IH]. Qed.

(** X8.  Whatever the pages, the cache and the order of the turns, and
    whether it completes, raises or is still pending, [gather] over the
    calls writes no file, adds to the log nothing but the error lines of
    [scrape_properties] for caught transport errors, and sends at most
    one request per entry of the requested list, to the URL registered
    for that entry: a URL gets no more requests than the list has entries
    registered under it. *)
Theorem gather_effects :
  forall w self evs ws st r st',
    gather w self evs ws st = (r, st') ->
    files st' = files st
    /\ (exists lines, log st' = log st ++ lines /\ Forall scraping_error lines)
    /\ (exists urls, requests st' = requests st ++ urls
                     /\ (length urls <= length ws)%nat
                     /\ forall url, (count_if (String.eqb url) urls
                                     <= count_if (asks self url) ws)%nat).
Proof.
  intros w self evs ws st r st' Hgather. unfold gather in Hgather.
  destruct (run w self evs (map Created ws) st) as [tasks st1] eqn:Hrun.
  assert (st1 = st') as ->.
  { destruct (raised tasks); [|destruct (results tasks)]; by injection Hgather. }
  clear Hgather.
  set (I := fun (tasks : list Task) (s : State) =>
              files s = files st
              /\ (exists lines, log s = log st ++ lines /\ Forall scraping_error lines)
              /\ (exists urls, requests s = requests st ++ urls
                               /\ (length urls + created tasks <= length ws)%nat
                               /\ forall url,
                                    (count_if (String.eqb url) urls
                                     + count_if (unstarted self url) tasks
                                     <= count_if (asks self url) ws)%nat)).
  assert (HI : I tasks st').
  { apply (run_preserves w self I) with (evs := evs) (tasks := map Created ws) (st := st);
      [|split_and!|done].
    - clear. intros ev tasks s tasks' s'
        (Hf & (lines & Hl & Hlines) & (urls & Hr & Hn & Hu)) Hturn.
      apply turn_cases in Hturn
        as [[-> ->] | [(i & now & website & t & -> & Hi & -> & Hstart)
                      | (i & now & website & url & r & -> & Hi & Hresume & ->)]].
      + split_and!; [done | by exists lines | by exists urls].
      + pose proof (created_insert tasks i _ t Hi) as Hc. simpl in Hc.
        destruct Hstart as [(r & Hstart & ->) | (url & Hstart & ->)].
        * apply start_effects in Hstart as (_ & Hl' & Hf' & Hr'); simpl in Hc.
          split_and!; [congruence | exists lines; split; [congruence | done] |].
          exists urls. split_and!; [congruence | lia |].
          intros url. specialize (Hu url).
          pose proof (count_if_insert (unstarted self url) tasks i _ (Done r) Hi) as Hq.
          simpl in Hq. lia.
        * pose proof (start_Awaiting _ _ _ _ _ _ Hstart) as (_ & Hurl & _).
          apply start_effects in Hstart as (_ & Hl' & Hf' & Hr'); simpl in Hc.
          split_and!; [congruence | exists lines; split; [congruence | done] |].
          exists (urls ++ [url]). rewrite Hr', Hr, length_app. simpl.
          split_and!; [by rewrite app_assoc | lia |].
          intros url'. specialize (Hu url').
          pose proof (count_if_insert (unstarted self url') tasks i _
                        (Fetching website url) Hi) as Hq.
          rewrite count_if_app. simpl in Hq |- *. unfold asks in Hq. rewrite Hurl in Hq.
          destruct (String.eqb url' url); lia.
      + pose proof (created_insert tasks i _ (Done r) Hi) as Hc. simpl in Hc.
        apply resume_effects in Hresume as (Hf' & Hr' & Hl').
        split_and!; [congruence | |].
        * destruct Hl' as [Hl' | (e & He & Hl')].
          -- exists lines. split; [congruence | done].
          -- exists (lines ++ [(ERROR, ErrorScraping (PyStr.capitalize website) e)]).
             rewrite Hl', Hl, app_assoc. split; [done|].
             apply Forall_app. split; [done|]. constructor; [|constructor].
             by exists (PyStr.capitalize website), e.
        * exists urls. split_and!; [congruence | lia |].
          intros url'. specialize (Hu url').
          pose proof (count_if_insert (unstarted self url') tasks i _ (Done r) Hi) as Hq.
          simpl in Hq. lia.
    - done.
    - exists []. by rewrite app_nil_r.
    - exists []. rewrite app_nil_r, created_all. simpl. split_and!; [done | lia |].
      intros url. rewrite unstarted_all. lia. }
  destruct HI as (Hf & Hl & (urls & Hr & Hn & Hu)).
  split_and!; [done | done |]. exists urls. split_and!; [done | lia |].
  intros url. specialize (Hu url). lia.
Qed.

Lemma gather_effects_witness :
  let w := Sample.world [(Sample.makaan_url, Sample.makaan_page)] in
  let st' := snd (gather w Sample.pune Sample.schedule (websites Sample.pune) initial) in
  files st' = files initial
  /\ (exists lines, log st' = log initial ++ lines /\ Forall scraping_error lines)
  /\ (exists urls, requests st' = requests initial ++ urls
                   /\ (length urls <= length (websites Sample.pune))%nat
                   /\ forall url, (count_if (String.eqb url) urls
                                   <= count_if (asks Sample.pune url)
                                        (websites Sample.pune))%nat).
Proof.
  intros w st'.
  apply (gather_effects w Sample.pune Sample.schedule (websites Sample.pune) initial
           (fst (gather w Sample.pune Sample.schedule (websites Sample.pune) initial))).
  reflexivity.
Defined.

(** A list that names makaan twice has two entries registered under the
    URL of makaan, and the page is requested twice. *)
Lemma named_twice_requested_twice :
  let w := Sample.world [(Sample.makaan_url, Sample.makaan_page)] in
  let run := gather w Specimen.twice Sample.schedule (websites Specimen.twice) initial in
  fst run = Completed [[Sample.lodha]; [Sample.lodha]]
  /\ requests (snd run) = [Sample.makaan_url; Sample.makaan_url]
  /\ count_if (asks Specimen.twice Sample.makaan_url) (websites Specimen.twice) = 2%nat.
Proof. vm_compute. done. Qed.

Lemma resume_Raise w self now website url st e st' :
  resume self now website (fetch_url w url) st = (Raise e, st') ->
  e = AttributeError \/ e = IndexError \/ e = TypeError.
Proof.
  unfold resume.
  destruct (let* soup := fetch_url w url in _) as [[data store]|e'] eqn:Hbody; [done|].
  destruct (handled e') eqn:He; [done|]. intros [= -> _].
  apply bind_Raise in Hbody as [Hbody | (soup & _ & Hbody)].
  { apply fetch_url_handled in Hbody. congruence. }
  apply bind_Raise in Hbody as [Hbody | (data & _ & Hbody)].
  { destruct (extract_Raise _ _ _ Hbody) as [-> | ->]; auto. }
  apply bind_Raise in Hbody as [Hbody | (? & _ & Hbody)]; [|discriminate].
  unfold AioCache.set in Hbody.
  destruct (AioCache.json_serializable data); [discriminate|].
  injection Hbody as <-. auto.
Qed.

Lemma start_Raise self now website st e st' :
  start self now website st = (Finished (Raise e), st') ->
  base_url self !! website = None /\ e = KeyError website.
Proof.
  unfold start. destruct (AioCache.get _ _ _) as [[|r d]|];
    try (destruct (base_url self !! website)); intros [= <- _] || intros [=]; done.
Qed.

Lemma raised_Some tasks e : raised tasks = Some e -> Done (Raise e) ∈ tasks.
Proof.
  induction tasks as [|t tasks IH]; simpl; [done|].
  destruct t as [| |[data|e']]; try (intros H; right; by apply IH).
  intros [= ->]. left.
Qed.

Lemma run_sound w self ws evs st tasks st' :
  run w self evs (map Created ws) st = (tasks, st') ->
  Forall (task_sound self ws) tasks.
Proof.
  intros Hrun.
  apply (run_preserves w self (fun tasks _ => Forall (task_sound self ws) tasks))
    with (evs := evs) (tasks := map Created ws) (st := st) (st' := st'); [| |done].
  - clear. intros ev tasks s tasks' s' HI Hturn.
    apply turn_cases in Hturn
      as [[-> ->] | [(i & now & website & t & -> & Hi & -> & Hstart)
                    | (i & now & website & url & r & -> & Hi & Hresume & ->)]];
      [done | |]; apply Forall_insert; try done.
    + pose proof (proj1 (Forall_lookup _ _) HI _ _ Hi) as Hin. simpl in Hin.
      destruct Hstart as [([data|e] & Hstart & ->) | (url & Hstart & ->)]; simpl.
      * done.
      * apply start_Raise in Hstart as [Hnone ->]. left. eauto.
      * apply start_Awaiting in Hstart as (_ & Hurl & _). done.
    + destruct r as [data|e]; simpl; [done|]. right. by eapply resume_Raise.
  - apply Forall_forall. intros t Ht.
    apply list_elem_of_In, in_map_iff in Ht as (website & <- & Hin).
    simpl. by apply list_elem_of_In.
Qed.

Lemma gather_call_exception w self evs ws st e st' :
  gather w self evs ws st = (Raised e, st') -> call_exception self ws e.
Proof.
  intros Hgather. unfold gather in Hgather.
  destruct (run w self evs (map Created ws) st) as [tasks st1] eqn:Hrun.
  pose proof (run_sound _ _ _ _ _ _ _ Hrun) as Hsound.
  destruct (raised tasks) as [e'|] eqn:Hraised; [|by destruct (results tasks)].
  injection Hgather as -> _.
  apply raised_Some in Hraised.
  rewrite Forall_forall in Hsound. apply (Hsound _ Hraised).
Qed.

Lemma call_exception_not_handled self ws e :
  call_exception self ws e ->
  handled e = false
  /\ forall key, e = KeyError key -> key ∈ ws /\ base_url self !! key = None.
Proof.
  intros [(website & Hin & Hnone & ->) | [-> | [-> | ->]]];
    (split; [done|]); intros key [= <-] || intros key [=]; done.
Qed.

(** X9.  An exception with which [gather], and so
    [scrape_properties_parallel], ends is never one of the transport
    errors the [except] clause names, and when it is a [KeyError] its key
    is a requested name that is not a key of [base_url]: over registered
    names a run never ends with a transport error or a [KeyError]. *)
Theorem gather_exceptions :
  forall w self evs ws st e st',
    gather w self evs ws st = (Raised e, st') ->
    handled e = false
    /\ forall key, e = KeyError key -> key ∈ ws /\ base_url self !! key = None.
Proof.
  intros w self evs ws st e st' Hgather.
  eapply call_exception_not_handled, gather_call_exception, Hgather.
Qed.

Lemma gather_exceptions_witness :
  handled (KeyError "both") = false
  /\ forall key, KeyError "both" = KeyError key ->
                 key ∈ websites Specimen.everything
                 /\ base_url Specimen.everything !! key = None.
Proof.
  apply (gather_exceptions
           (Sample.world [(Sample.magicbricks_url, Sample.magicbricks_page)])
           Specimen.everything Sample.schedule (websites Specimen.everything) initial
           (KeyError "both")
           (snd (gather
                   (Sample.world [(Sample.magicbricks_url, Sample.magicbricks_page)])
                   Specimen.everything Sample.schedule (websites Specimen.everything)
                   initial))).
  reflexivity.
Defined.

Lemma commonfloor_never_returns_records_witness :
  exists e,
    scrape_properties
      (Sample.world [(Specimen.commonfloor_url, Specimen.commonfloor_page)])
      Sample.pune 0 1 "commonfloor" initial
    = (Raise e, request Specimen.commonfloor_url initial)
    /\ (e = AttributeError \/ e = IndexError \/ e = TypeError).
Proof.
  apply (commonfloor_never_returns_records
           (Sample.world [(Specimen.commonfloor_url, Specimen.commonfloor_page)])
           Sample.pune 0 1 initial Specimen.commonfloor_url Specimen.commonfloor_page).
  - reflexivity.
  - reflexivity.
  - discriminate.
Defined.

(** ** Only strings reach the cache and the CSV file *)

Lemma magicbricks_listing_textual listing rs :
  magicbricks_listing listing = Ok rs -> Forall textual rs.
Proof.
  unfold magicbricks_listing. intros H.
  apply bind_Ok in H as (owners & _ & [= <-]).
  apply Forall_map, Forall_forall. intros [[o p] n] _. by exists o, p, n.
Qed.

Lemma makaan_listing_textual listing rs :
  makaan_listing listing = Ok rs -> Forall textual rs.
Proof.
  unfold makaan_listing. intros H.
  apply bind_Ok in H as (? & _ & H). apply bind_Ok in H as (? & _ & H).
  apply bind_Ok in H as (? & _ & [= <-]).
  apply Forall_map, Forall_forall. intros [[o p] n] _. by eexists _, _, _.
Qed.

Lemma extract_textual website soup data :
  extract website soup = Ok data ->
  AioCache.json_serializable data = true -> Forall textual data.
Proof.
  intros Hextract Hjson.
  destruct (String.eqb_spec website "commonfloor") as [-> | Hcf].
  { destruct (find_all "div" (Some "snb-content-list") soup) as [|listing l] eqn:Hl.
    - unfold extract in Hextract. simpl in Hextract. rewrite Hl in Hextract.
      injection Hextract as <-. constructor.
    - rewrite (commonfloor_not_serializable soup data Hextract) in Hjson; [done|].
      by rewrite Hl. }
  unfold extract in Hextract. apply String.eqb_neq in Hcf. rewrite Hcf in Hextract.
  clear Hjson. revert Hextract.
  destruct (String.eqb website "magicbricks").
  { apply for_each_invariant; [|constructor].
    intros acc x acc' Hacc H. apply bind_Ok in H as (rs & Hrs & [= <-]).
    apply Forall_app. split; [done | by apply magicbricks_listing_textual in Hrs]. }
  destruct (String.eqb website "makaan"); [|intros [= <-]; constructor].
  apply for_each_invariant; [|constructor].
  intros acc x acc' Hacc H. apply bind_Ok in H as (rs & Hrs & [= <-]).
  apply Forall_app. split; [done | by apply makaan_listing_textual in Hrs].
Qed.

Lemma start_Ok self now website st data st' :
  start self now website st = (Finished (Ok data), st') ->
  exists entry, cache st !! cache_key self website = Some entry
                /\ AioCache.value entry = data.
Proof.
  unfold start. destruct (AioCache.get _ _ _) as [[|r d]|] eqn:Hget;
    try (destruct (base_url self !! website); discriminate).
  intros [= <- _]. apply get_Some in Hget as (entry & ? & ? & _). eauto.
Qed.

Lemma resume_Ok_textual self now website fetched st data st' :
  cache_textual st ->
  resume self now website fetched st = (Ok data, st') ->
  cache_textual st' /\ Forall textual data.
Proof.
  intros Hcache. unfold resume.
  destruct (let* soup := fetched in _) as [[data' store]|e] eqn:Hbody.
  - intros [= -> <-].
    apply bind_Ok in Hbody as (soup & _ & Hbody).
    apply bind_Ok in Hbody as (data'' & Hextract & Hbody).
    apply bind_Ok in Hbody as (store' & Hset & [= -> ->]).
    unfold AioCache.set in Hset.
    destruct (AioCache.json_serializable data) eqn:Hjson; [|discriminate].
    injection Hset as <-.
    pose proof (extract_textual _ _ _ Hextract Hjson) as Hdata.
    split; [|done]. intros key entry. simpl.
    intros [[_ <-] | [_ Hold]]%lookup_insert_Some; [done | by eapply Hcache].
  - destruct (handled e); intros [= <- <-]. split; [done | constructor].
Qed.

Lemma results_Forall (P : list Record -> Prop) tasks property_data :
  results tasks = Some property_data ->
  Forall (fun t => forall data, t = Done (Ok data) -> P data) tasks ->
  Forall P property_data.
Proof.
  revert property_data. induction tasks as [|t tasks IH]; simpl; intros pd H Hall.
  - injection H as <-. constructor.
  - destruct t as [| |[data|e]]; try discriminate.
    destruct (results tasks) as [l|]; [|discriminate]. injection H as <-.
    inversion Hall as [|? ? Ht Hrest]; subst. constructor; eauto.
Qed.

(** X10.  If the cache holds nothing but records of three strings when
    [gather] starts, it holds nothing else when [gather] completes, in
    whatever order the tasks ran, and every record [gather] returns, from
    the cache or from a page, is made of three strings: no bs4 tag
    reaches the CSV file. *)
Theorem gather_textual :
  forall w self evs ws st property_data st',
    cache_textual st ->
    gather w self evs ws st = (Completed property_data, st') ->
    cache_textual st' /\ Forall (Forall textual) property_data.
Proof.
  intros w self evs ws st property_data st' Hcache Hgather. unfold gather in Hgather.
  destruct (run w self evs (map Created ws) st) as [tasks st1] eqn:Hrun.
  set (I := fun (tasks : list Task) (s : State) =>
              cache_textual s
              /\ Forall (fun t => forall data, t = Done (Ok data) -> Forall textual data)
                   tasks).
  assert (HI : I tasks st1).
  { apply (run_preserves w self I) with (evs := evs) (tasks := map Created ws) (st := st);
      [|split|done].
    - clear. intros ev tasks s tasks' s' [Hc Ht] Hturn.
      apply turn_cases in Hturn
        as [[-> ->] | [(i & now & website & t & -> & Hi & -> & Hstart)
                      | (i & now & website & url & r & -> & Hi & Hresume & ->)]];
        [done | |].
      + destruct Hstart as [(r & Hstart & ->) | (url & Hstart & ->)].
        * pose proof (start_effects _ _ _ _ _ _ Hstart) as (Hsame & _).
          split; [intros key entry; rewrite Hsame; apply Hc|].
          apply Forall_insert; [done|]. intros data [= ->].
          apply start_Ok in Hstart as (entry & Hentry & <-). by eapply Hc.
        * pose proof (start_effects _ _ _ _ _ _ Hstart) as (Hsame & _).
          split; [intros key entry; rewrite Hsame; apply Hc|].
          by apply Forall_insert.
      + destruct r as [data|e].
        * destruct (resume_Ok_textual _ _ _ _ _ _ _ Hc Hresume) as [Hc' Hdata].
          split; [done|]. apply Forall_insert; [done|]. by intros ? [= <-].
        * assert (s' = s) as ->.
          { unfold resume in Hresume.
            destruct (let* soup := fetch_url w url in _) as [[? ?]|e']; [done|].
            by destruct (handled e'); injection Hresume. }
          split; [done|]. by apply Forall_insert.
    - done.
    - apply Forall_forall. intros t Ht data ->.
      apply list_elem_of_In, in_map_iff in Ht as (? & [=] & _). }
  destruct (raised tasks); [done|].
  destruct (results tasks) as [pd|] eqn:Hresults; [|done].
  injection Hgather as <- <-. destruct HI as [Hc Ht].
  split; [done|]. by eapply results_Forall.
Qed.

Lemma gather_textual_witness :
  let w := Sample.world [(Sample.magicbricks_url, Sample.magicbricks_page);
                         (Sample.makaan_url, Sample.makaan_page)] in
  cache_textual (snd (gather w Sample.pune Sample.schedule (websites Sample.pune) initial))
  /\ Forall (Forall textual) [[Sample.omkar]; [Sample.lodha]].
Proof.
  intros w.
  apply (gather_textual w Sample.pune Sample.schedule (websites Sample.pune) initial).
  - intros key entry H. discriminate H.
  - reflexivity.
Defined.

(** ** Cache keys and names that are not registered *)

(** X11.  Two registered websites, each with its city, share a cache
    key only if they are the same website with the same city. *)
Theorem cache_key_registered_inj :
  forall self1 self2 website1 website2 url1 url2,
    base_url self1 !! website1 = Some url1 ->
    base_url self2 !! website2 = Some url2 ->
    cache_key self1 website1 = cache_key self2 website2 ->
    website1 = website2 /\ city self1 = city self2.
Proof.
  intros self1 self2 website1 website2 url1 url2 H1 H2. unfold cache_key.
  destruct (base_url_registered _ _ _ H1) as [-> | [-> | ->]];
    destruct (base_url_registered _ _ _ H2) as [-> | [-> | ->]];
    simpl; intros H; try discriminate H; by injection H.
Qed.

Lemma cache_key_registered_inj_witness :
  "makaan" = "makaan" /\ city Sample.pune = city Sample.pune.
Proof.
  apply (cache_key_registered_inj Sample.pune Sample.pune "makaan" "makaan"
           Sample.makaan_url Sample.makaan_url); reflexivity.
Defined.

Lemma resume_cache self now website fetched st r st' :
  resume self now website fetched st = (r, st') ->
  cache st' = cache st
  \/ exists entry, cache st' = <[cache_key self website := entry]> (cache st).
Proof.
  unfold resume. destruct (let* soup := fetched in _) as [[data store]|e] eqn:Hbody.
  - intros [= <- <-]. right.
    apply bind_Ok in Hbody as (soup & _ & Hbody).
    apply bind_Ok in Hbody as (data' & _ & Hbody).
    apply bind_Ok in Hbody as (store' & Hset & [= -> ->]).
    unfold AioCache.set in Hset.
    destruct (AioCache.json_serializable data); [|discriminate].
    injection Hset as <-. eauto.
  - destruct (handled e); intros [= <- <-]; by left.
Qed.

Lemma results_lookup tasks property_data j t :
  results tasks = Some property_data -> tasks !! j = Some t ->
  exists data, t = Done (Ok data).
Proof.
  revert property_data j. induction tasks as [|a tasks IH]; intros pd [|j] H Hj;
    simpl in *; try done.
  - injection Hj as ->. destruct t as [| |[data|e]]; try discriminate. eauto.
  - destruct a as [| |[data|e]]; try discriminate.
    destruct (results tasks) as [l|] eqn:Hl; [|discriminate]. eauto.
Qed.

Lemma gather_unregistered w self evs ws st website :
  website ∈ ws ->
  base_url self !! website = None ->
  cache st !! cache_key self website = None ->
  forall property_data,
    fst (gather w self evs ws st) <> Completed property_data.
Proof.
  intros Hin Hnone Hfresh property_data.
  apply list_elem_of_lookup_1 in Hin as [j Hj].
  unfold gather.
  destruct (run w self evs (map Created ws) st) as [tasks st1] eqn:Hrun.
  set (I := fun (tasks : list Task) (s : State) =>
              cache s !! cache_key self website = None
              /\ (tasks !! j = Some (Created website)
                  \/ tasks !! j = Some (Done (Raise (KeyError website))))
              /\ Forall (fun t => forall w' url, t = Fetching w' url ->
                                                 base_url self !! w' = Some url) tasks).
  assert (HI : I tasks st1).
  { apply (run_preserves w self I) with (evs := evs) (tasks := map Created ws) (st := st);
      [|split_and!|done].
    - clear -Hnone. intros ev tasks s tasks' s' (Hc & Hj & Hf) Hturn.
      apply turn_cases in Hturn
        as [[-> ->] | [(i & now & w' & t & -> & Hi & -> & Hstart)
                      | (i & now & w' & url & r & -> & Hi & Hresume & ->)]];
        [done | |].
      + assert (Hc' : cache s' !! cache_key self website = None).
        { destruct Hstart as [(r & Hstart & _) | (url & Hstart & _)];
            apply start_effects in Hstart as (-> & _); done. }
        assert (Hf' : Forall (fun t0 => forall w'' url, t0 = Fetching w'' url ->
                                  base_url self !! w'' = Some url) (<[i := t]> tasks)).
        { apply Forall_insert; [done|].
          destruct Hstart as [(r & _ & ->) | (url & Hstart & ->)]; [done|].
          intros ? ? [= <- <-]. by apply start_Awaiting in Hstart as (_ & ? & _). }
        split_and!; [done | | done].
        destruct (decide (i = j)) as [-> | Hne];
          [|by rewrite list_lookup_insert_ne].
        rewrite list_lookup_insert_eq by (by eapply lookup_lt_Some).
        destruct Hj as [Hj | Hj]; [|congruence].
        assert (w' = website) as -> by congruence.
        destruct Hstart as [(r & Hstart & ->) | (url & Hstart & ->)].
        * right. unfold start, AioCache.get in Hstart. rewrite Hc, Hnone in Hstart.
          by injection Hstart as <- _.
        * apply start_Awaiting in Hstart as (_ & ? & _). congruence.
      + pose proof (proj1 (Forall_lookup _ _) Hf _ _ Hi _ _ eq_refl) as Hurl.
        assert (Hne : cache_key self w' <> cache_key self website).
        { intros Heq%cache_key_inj. congruence. }
        split_and!.
        * apply resume_cache in Hresume as [-> | [entry ->]]; [done|].
          by rewrite lookup_insert_ne.
        * destruct (decide (i = j)) as [-> | Hij];
            [destruct Hj; congruence | by rewrite list_lookup_insert_ne].
        * by apply Forall_insert.
    - done.
    - left. rewrite list_lookup_fmap. by rewrite Hj.
    - apply Forall_forall. intros t Ht ? ? ->.
      apply list_elem_of_In, in_map_iff in Ht as (? & [=] & _). }
  destruct HI as (_ & Hj' & _). simpl.
  destruct (raised tasks); [done|].
  destruct (results tasks) as [pd|] eqn:Hresults; [|done].
  destruct Hj' as [Hj' | Hj'];
    destruct (results_lookup _ _ _ _ Hresults Hj') as [data Hdata]; discriminate.
Qed.

Lemma gather_files w self evs ws st :
  files (snd (gather w self evs ws st)) = files st.
Proof.
  unfold gather.
  destruct (run w self evs (map Created ws) st) as [tasks st1] eqn:Hrun.
  assert (Hf : files st1 = files st).
  { apply (run_preserves w self (fun _ s => files s = files st))
      with (evs := evs) (tasks := map Created ws) (st := st) (tasks' := tasks);
      [|done|done].
    clear. intros ev tasks s tasks' s' Hf Hturn.
    apply turn_cases in Hturn
      as [[-> ->] | [(i & now & website & t & -> & Hi & -> & Hstart)
                    | (i & now & website & url & r & -> & Hi & Hresume & ->)]].
    - done.
    - destruct Hstart as [(r & Hstart & _) | (url & Hstart & _)];
        apply start_effects in Hstart as (_ & _ & Hf' & _); congruence.
    - apply resume_effects in Hresume as (Hf' & _). congruence. }
  destruct (raised tasks); [done|]. by destruct (results tasks).
Qed.

(** X12.  A run of [scrape_properties_parallel] whose list of websites
    to scrape (the requested list, or the three sites when "all" is in
    it) holds a name that is not a key of [base_url], with nothing in the
    cache under the key of that name, never completes, whatever the other
    websites give and however the tasks are served: the call for that
    name can only raise [KeyError], so the run is pending or ends with an
    exception, [save_to_csv] is not reached and no file is written. *)
Theorem unregistered_website_never_completes :
  forall w self evs st website,
    website ∈ websites_to_scrape self ->
    base_url self !! website = None ->
    cache st !! cache_key self website = None ->
    fst (scrape_properties_parallel w self evs st) <> Completed tt
    /\ files (snd (scrape_properties_parallel w self evs st)) = files st.
Proof.
  intros w self evs st website Hin Hnone Hfresh.
  pose proof (gather_unregistered w self evs _ st website Hin Hnone Hfresh) as Hnot.
  pose proof (gather_files w self evs (websites_to_scrape self) st) as Hfiles.
  unfold scrape_properties_parallel.
  destruct (gather w self evs (websites_to_scrape self) st) as [[property_data|e|] st1];
    simpl in *; [by destruct (Hnot property_data) | done | done].
Qed.

Lemma unregistered_website_never_completes_witness :
  let w := Sample.world [(Sample.magicbricks_url, Sample.magicbricks_page)] in
  fst (scrape_properties_parallel w Specimen.everything Sample.schedule initial)
  <> Completed tt
  /\ files (snd (scrape_properties_parallel w Specimen.everything Sample.schedule initial))
     = files initial.
Proof.
  apply (unregistered_website_never_completes
           (Sample.world [(Sample.magicbricks_url, Sample.magicbricks_page)])
           Specimen.everything Sample.schedule initial "both").
  - right. left.
  - reflexivity.
  - reflexivity.
Defined.

(** With "all" beside it, the unregistered name is not among the
    websites to scrape, and the run completes. *)
Lemma all_replaces_the_requested_list :
  let self := {| websites := ["all"; "both"]; city := "pune"; output_dir := "data" |} in
  websites_to_scrape self = ["magicbricks"; "makaan"; "commonfloor"]
  /\ fst (scrape_properties_parallel (Sample.world []) self
            [(0%nat, 0); (1%nat, 0); (2%nat, 0); (0%nat, 1); (1%nat, 1); (2%nat, 1)]
            initial)
     = Completed tt.
Proof. vm_compute. done. Qed.

(** ** The path of the CSV file *)

Lemma startswith_append c rest tail p :
  PyStr.startswith (String c rest +:+ tail) (String p EmptyString) = Ascii.eqb p c.
Proof.
  simpl. destruct (Ascii.eqb p c); [|done]. by destruct (rest +:+ tail).
Qed.

(** X13.  With the output directory "data" and a city that is not
    empty, the CSV file is "data/" followed by the file name, unless the
    city begins with a slash: then [os.path.join] drops the directory and
    the path is the file name alone, an absolute path. *)
Theorem file_path_of_city :
  forall w self c rest,
    city self = String c rest ->
    output_dir self = "data" ->
    file_path w self
    = if Ascii.eqb slash c then filename w self else "data/" +:+ filename w self.
Proof.
  intros w self c rest Hcity Hdir. unfold file_path, PyStr.path_join.
  fold (filename w self). unfold filename at 1. rewrite Hcity, Hdir.
  rewrite (startswith_append c rest _ slash).
  by destruct (Ascii.eqb slash c).
Qed.

Lemma file_path_of_city_witness :
  file_path (Sample.world []) Specimen.root = "/tmp/pune-makaan-03-Nov-2026.csv".
Proof.
  apply (file_path_of_city (Sample.world []) Specimen.root slash "tmp/pune");
    reflexivity.
Defined.

(** ** The command line *)

Lemma split_nonempty sep s : Cli.split sep s <> [].
Proof.
  destruct s as [|c s]; simpl; [done|].
  destruct (Ascii.eqb c sep); [done|]. by destruct (Cli.split sep s).
Qed.

Lemma join_cons sep c item items :
  PyStr.join sep (String c item :: items) = String c (PyStr.join sep (item :: items)).
Proof. by destruct items. Qed.

(** X14.  Splitting a line at its commas loses nothing: joining the
    items with commas gives the line back, and there is one item more
    than there are commas (so the empty line gives one empty item, never
    an empty list). *)
Theorem split_join_round_trip :
  forall s,
    PyStr.join "," (Cli.split Cli.comma s) = s
    /\ length (Cli.split Cli.comma s) = S (count_char Cli.comma s).
Proof.
  induction s as [|c s [IHjoin IHlen]]; [done|]. simpl.
  destruct (Ascii.eqb_spec c Cli.comma) as [-> | Hne].
  - simpl. rewrite IHlen. split; [|done].
    destruct (Cli.split Cli.comma s) as [|item items] eqn:Hs; [done|].
    by rewrite <- IHjoin.
  - destruct (Cli.split Cli.comma s) as [|item items] eqn:Hs; [done|].
    rewrite join_cons, IHjoin. simpl in *. by rewrite IHlen.
Qed.

Lemma get_user_input_nonempty city_line websites_line :
  snd (Cli.get_user_input city_line websites_line) <> [].
Proof.
  unfold Cli.get_user_input. destruct (existsb _ _); simpl.
  - intros H. by apply app_eq_nil in H as [_ H].
  - apply split_nonempty.
Qed.

(** Membership in a list that is written out. *)
Ltac case_elem H :=
  repeat (apply elem_of_cons in H as [H | H]; [try discriminate H|]);
  try (by apply elem_of_nil in H).

Ltac none_of_list := split; intros H; case_elem H.

(** X15.  No input makes the [__main__] block report that at least one
    website must be selected: [split] never gives an empty list, so the
    second test of the chain is never true. *)
Theorem main_never_asks_for_a_website :
  forall w mkdir city_line websites_line evs st o,
    ascii_text city_line = true -> ascii_text websites_line = true ->
    Cli.main w mkdir city_line websites_line evs st = Some o ->
    ((ERROR, Cli.WebsiteRequired) ∉ Cli.logged o)
    /\ (Cli.WebsiteRequired ∉ Cli.printed o).
Proof.
  intros w mkdir city_line websites_line evs st o _ _. unfold Cli.main.
  pose proof (get_user_input_nonempty city_line websites_line) as Hne.
  destruct (Cli.get_user_input city_line websites_line) as [city websites].
  simpl in Hne. destruct websites as [|website websites]; [done|].
  destruct (String.eqb city EmptyString); [intros [= <-]; simpl; none_of_list|].
  destruct (existsb _ _); [intros [= <-]; simpl; none_of_list|].
  destruct mkdir as [[]|e]; [|intros [= <-]; simpl; none_of_list].
  destruct (scrape_properties_parallel _ _ _ _) as [[[]|e|] st'];
    [| |done]; intros [= <-]; simpl; none_of_list.
Qed.

Lemma main_never_asks_for_a_website_witness :
  ((ERROR, Cli.WebsiteRequired) ∉ Cli.logged (Cli.complain Cli.InvalidChoice initial))
  /\ (Cli.WebsiteRequired ∉ Cli.printed (Cli.complain Cli.InvalidChoice initial)).
Proof.
  apply (main_never_asks_for_a_website (Sample.world []) (Ok tt) "pune" "" []
           initial); reflexivity.
Defined.

(** X16.  When the city line is blank, or some item of the websites
    line is none of the four choices, the [__main__] block logs and
    prints one error and goes no further: the scraper is not built, no
    request is sent, the cache and the files are as they were. *)
Theorem main_config_error :
  forall w mkdir city_line websites_line evs st,
    ascii_text city_line = true -> ascii_text websites_line = true ->
    (fst (Cli.get_user_input city_line websites_line) = EmptyString
     \/ exists website,
          website ∈ snd (Cli.get_user_input city_line websites_line)
          /\ website ∉ Cli.choices) ->
    exists line,
      Cli.main w mkdir city_line websites_line evs st = Some (Cli.complain line st)
      /\ (line = Cli.CityRequired \/ line = Cli.InvalidChoice).
Proof.
  intros w mkdir city_line websites_line evs st _ _ Hbad. unfold Cli.main.
  pose proof (get_user_input_nonempty city_line websites_line) as Hne.
  destruct (Cli.get_user_input city_line websites_line) as [city websites].
  simpl in Hne, Hbad. destruct websites as [|website0 websites]; [done|].
  destruct (String.eqb_spec city EmptyString) as [-> | Hcity]; [eauto|].
  destruct Hbad as [-> | (website & Hin & Hout)]; [done|].
  assert (Hex : existsb (fun website => negb (existsb (String.eqb website) Cli.choices))
                  (website0 :: websites) = true).
  { apply existsb_exists. exists website. split; [by apply list_elem_of_In|].
    apply negb_true_iff. destruct (existsb _ Cli.choices) eqn:Hc; [|done].
    apply existsb_exists in Hc as (x & Hx & Heq). apply String.eqb_eq in Heq as ->.
    by apply list_elem_of_In in Hx. }
  rewrite Hex. eauto.
Qed.

Lemma main_config_error_witness :
  exists line,
    Cli.main (Sample.world []) (Ok tt) "Pune" "magicbricks, makaan" [] initial
    = Some (Cli.complain line initial)
    /\ (line = Cli.CityRequired \/ line = Cli.InvalidChoice).
Proof.
  apply (main_config_error (Sample.world []) (Ok tt) "Pune" "magicbricks, makaan"
           [] initial); [reflexivity | reflexivity |].
  right. exists " makaan". split; [right; left|].
  intros H. case_elem H.
Defined.

Lemma base_url_sites self website :
  website ∈ sites -> exists url, base_url self !! website = Some url.
Proof.
  intros Hin. apply list_elem_of_In in Hin. unfold base_url.
  destruct Hin as [<- | [<- | [<- | []]]]; eexists.
  - apply lookup_insert_eq.
  - rewrite lookup_insert_ne by done. apply lookup_insert_eq.
  - rewrite !lookup_insert_ne by done. apply lookup_insert_eq.
Qed.

Lemma validated_registered websites city website :
  existsb (fun website => negb (existsb (String.eqb website) Cli.choices)) websites
  = false ->
  website ∈ websites_to_scrape
              {| websites := websites; city := city; output_dir := "data" |} ->
  website ∈ sites.
Proof.
  intros Hvalid. unfold websites_to_scrape. cbn [Scraper.websites].
  destruct (existsb (String.eqb "all") websites) eqn:Hall; [intros H; exact H|].
  intros Hin.
  assert (Hc : existsb (String.eqb website) Cli.choices = true).
  { destruct (existsb (String.eqb website) Cli.choices) eqn:Hc; [done|].
    assert (existsb (fun website => negb (existsb (String.eqb website) Cli.choices))
              websites = true); [|congruence].
    apply existsb_exists. exists website. split; [by apply list_elem_of_In|].
    by rewrite Hc. }
  assert (Hna : website <> "all").
  { intros ->. assert (existsb (String.eqb "all") websites = true); [|congruence].
    apply existsb_exists. exists "all". split; [by apply list_elem_of_In | done]. }
  apply existsb_exists in Hc as (x & Hx & Heq). apply String.eqb_eq in Heq as <-.
  simpl in Hx. apply list_elem_of_In. simpl. intuition.
Qed.

(** X17.  When the [__main__] block reports an error of the run, the
    exception is the one of creating the output directory, or it is
    neither a [KeyError] nor one of the transport errors the [except]
    clause names: after the validation of the input every website to
    scrape is a key of [base_url], and a transport error is turned into
    an empty result. *)
Theorem main_run_errors :
  forall w mkdir city_line websites_line evs st o e,
    ascii_text city_line = true -> ascii_text websites_line = true ->
    Cli.main w mkdir city_line websites_line evs st = Some o ->
    (ERROR, Cli.ErrorRunning e) ∈ Cli.logged o ->
    mkdir = Raise e \/ (handled e = false /\ forall key, e <> KeyError key).
Proof.
  intros w mkdir city_line websites_line evs st o e _ _. unfold Cli.main.
  destruct (Cli.get_user_input city_line websites_line) as [city websites].
  destruct (String.eqb city EmptyString);
    [intros [= <-]; simpl; intros H; case_elem H|].
  destruct websites as [|website0 websites];
    [intros [= <-]; simpl; intros H; case_elem H|].
  destruct (existsb _ (website0 :: websites)) eqn:Hvalid;
    [intros [= <-]; simpl; intros H; case_elem H|].
  destruct mkdir as [[]|e0].
  2:{ intros [= <-]. simpl. intros He. left. case_elem He. by injection He as ->. }
  set (self := {| websites := website0 :: websites; city := city; output_dir := "data" |}).
  unfold scrape_properties_parallel, gather.
  destruct (run w self evs (map Created (websites_to_scrape self)) st)
    as [tasks st1] eqn:Hrun.
  pose proof (run_sound _ _ _ _ _ _ _ Hrun) as Hsound.
  destruct (raised tasks) as [e'|] eqn:Hraised.
  - intros [= <-]. simpl. intros He. right.
    assert (e = e') as <- by (case_elem He; by injection He).
    apply raised_Some in Hraised. rewrite Forall_forall in Hsound.
    destruct (call_exception_not_handled _ _ _ (Hsound _ Hraised)) as [Hnot Hkey].
    split; [done|]. intros key ->.
    destruct (Hkey key eq_refl) as [Hin Hnone].
    apply (validated_registered _ _ _ Hvalid), (base_url_sites self) in Hin as [url Hurl].
    congruence.
  - destruct (results tasks); [|done]. intros [= <-]. simpl. intros H. case_elem H.
Qed.

Lemma main_run_errors_witness :
  Ok tt = Raise AttributeError
  \/ (handled AttributeError = false /\ forall key, AttributeError <> KeyError key).
Proof.
  apply (main_run_errors
           (Sample.world [(Sample.makaan_url, Sample.makaan_page_no_unit)])
           (Ok tt) "Pune" "makaan" [(0%nat, 0); (0%nat, 1)] initial
           {| Cli.state := request Sample.makaan_url initial;
              Cli.logged := [(ERROR, Cli.ErrorRunning AttributeError);
                             (INFO, Cli.MemoryUsage)];
              Cli.printed := [Cli.ErrorRunning AttributeError; Cli.MemoryUsage] |}
           AttributeError); [reflexivity | reflexivity | reflexivity | left].
Defined.

Lemma elem_of_existsb x (l : list string) :
  x ∈ l -> existsb (String.eqb x) l = true.
Proof.
  intros Hin. apply existsb_exists. exists x.
  split; [by apply list_elem_of_In | apply String.eqb_refl].
Qed.

(** X18.  When "all" is among the items typed, each of the three
    registered websites is among the websites the run scrapes, whatever
    else was typed beside it. *)
Theorem all_scrapes_every_site :
  forall city_line websites_line site,
    ascii_text city_line = true -> ascii_text websites_line = true ->
    "all" ∈ Cli.split Cli.comma (PyStr.lower (PyStr.strip websites_line)) ->
    site ∈ sites ->
    site ∈ websites_to_scrape
             {| websites := snd (Cli.get_user_input city_line websites_line);
                city := fst (Cli.get_user_input city_line websites_line);
                output_dir := "data" |}.
Proof.
  intros city_line websites_line site _ _ Hall Hsite.
  unfold Cli.get_user_input. rewrite (elem_of_existsb _ _ Hall). simpl.
  unfold websites_to_scrape. simpl. destruct (existsb _ _); [done|].
  apply elem_of_app. by right.
Qed.

Lemma all_scrapes_every_site_witness :
  "commonfloor"
  ∈ websites_to_scrape
      {| websites := snd (Cli.get_user_input "Pune" "ALL,makaan");
         city := fst (Cli.get_user_input "Pune" "ALL,makaan");
         output_dir := "data" |}.
Proof.
  apply (all_scrapes_every_site "Pune" "ALL,makaan" "commonfloor");
    [reflexivity | reflexivity | left | right; right; left].
Defined.

(** ** The packaged class against [scraper-5.py] *)

Lemma packaged_base_url_magicbricks self :
  Packaged.base_url self !! "magicbricks" = base_url self !! "magicbricks".
Proof. unfold Packaged.base_url, base_url. by rewrite !lookup_insert_eq. Qed.

Lemma packaged_resume_magicbricks self now fetched st :
  Packaged.resume self now "magicbricks" fetched st
  = resume self now "magicbricks" fetched st.
Proof. reflexivity. Qed.

(** X19.  On magicbricks the class of [modules/property_market_scraper.py]
    and the one of [scraper-5.py] do the same: from the same state, at
    the same times and with the same network, [scrape_properties] returns
    the same result and leaves the same cache, log and requests. *)
Theorem packaged_magicbricks_same :
  forall w self t0 t1 st,
    Packaged.scrape_properties w self t0 t1 "magicbricks" st
    = scrape_properties w self t0 t1 "magicbricks" st.
Proof.
  intros w self t0 t1 st. unfold Packaged.scrape_properties, scrape_properties.
  assert (Packaged.start self t0 "magicbricks" st = start self t0 "magicbricks" st)
    as ->.
  { unfold Packaged.start, start. by rewrite packaged_base_url_magicbricks. }
  destruct (start self t0 "magicbricks" st) as [[r|url] st1]; [done|].
  apply packaged_resume_magicbricks.
Qed.

Lemma recurrency_map (l : list (string * string * string)) :
  Forall2 recurrency
    (map (fun '(owner, price, prop_name) =>
            record (PStr (PyStr.replace "BUILDER0" "" owner))
              (PStr (rupee +:+ price)) (PStr prop_name)) l)
    (map (fun '(owner, price, prop_name) =>
            record (PStr (PyStr.replace "BUILDER0" "" owner))
              (PStr (Packaged.currency +:+ price)) (PStr prop_name)) l).
Proof.
  induction l as [|[[o p] n] l IH]; simpl; constructor; [|done].
  by eexists _, _, _.
Qed.

Lemma packaged_makaan_listing listing :
  same_but_currency (makaan_listing listing) (Packaged.makaan_listing listing).
Proof.
  unfold makaan_listing, Packaged.makaan_listing.
  destruct (comprehension _ (find_all "td" (Some "price") listing)) as [dens|e];
    simpl; [|done].
  destruct (comprehension text_of _) as [prices|e]; simpl; [|done].
  destruct (comprehension _ (find_all "div" (Some "seller-info") listing))
    as [names|e]; simpl; [|done].
  apply recurrency_map.
Qed.

Lemma packaged_for_each (l : list Node) acc acc' :
  Forall2 recurrency acc acc' ->
  same_but_currency
    (for_each (fun acc listing =>
                 let* rs := makaan_listing listing in Ok (acc ++ rs)) acc l)
    (for_each (fun acc listing =>
                 let* rs := Packaged.makaan_listing listing in Ok (acc ++ rs)) acc' l).
Proof.
  revert acc acc'. induction l as [|listing l IH]; intros acc acc' Hacc; simpl; [done|].
  pose proof (packaged_makaan_listing listing) as Hl. unfold same_but_currency in Hl.
  destruct (makaan_listing listing) as [rs|e],
           (Packaged.makaan_listing listing) as [rs'|e']; simpl; try done.
  apply IH. by apply Forall2_app.
Qed.

(** X20.  On makaan the two classes raise on the same pages, and where
    they return they give record for record the same owner, the same
    title and the same price text behind the currency string: the
    currency sign U+20B9 in [scraper-5.py], the seven bytes of its
    mis-decoded form in the packaged class. *)
Theorem packaged_makaan_currency :
  forall soup,
    same_but_currency (extract "makaan" soup) (Packaged.extract "makaan" soup).
Proof.
  intros soup.
  change (extract "makaan" soup)
    with (for_each (fun acc listing =>
                      let* rs := makaan_listing listing in Ok (acc ++ rs))
            [] (find_all "div" (Some "search-result-wrap") soup)).
  change (Packaged.extract "makaan" soup)
    with (for_each (fun acc listing =>
                      let* rs := Packaged.makaan_listing listing in Ok (acc ++ rs))
            [] (find_all "div" (Some "search-result-wrap") soup)).
  apply packaged_for_each. constructor.
Qed.

(** X21.  The packaged class registers magicbricks and makaan only: for
    any other name, commonfloor among them, a call that the cache does
    not serve raises [KeyError] before any request is sent, and changes
    nothing. *)
Theorem packaged_unregistered :
  forall w self t0 t1 website st,
    website <> "magicbricks" -> website <> "makaan" ->
    served self t0 website st = None ->
    Packaged.scrape_properties w self t0 t1 website st
    = (Raise (KeyError website), st).
Proof.
  intros w self t0 t1 website st Hmb Hmk Hs.
  unfold Packaged.scrape_properties, Packaged.start, Packaged.base_url.
  rewrite !lookup_insert_ne, lookup_empty by done.
  unfold served in Hs. by destruct (AioCache.get _ _ _) as [[|r d]|].
Qed.

Lemma packaged_unregistered_witness :
  Packaged.scrape_properties
    (Sample.world [(Specimen.commonfloor_url, Specimen.commonfloor_page)])
    Sample.pune 0 1 "commonfloor" initial
  = (Raise (KeyError "commonfloor"), initial).
Proof.
  apply (packaged_unregistered
           (Sample.world [(Specimen.commonfloor_url, Specimen.commonfloor_page)])
           Sample.pune 0 1 "commonfloor" initial); [discriminate | discriminate |].
  reflexivity.
Defined.
